(** * Orunmila: the webhook pipeline of the Telex.im agent

    The development follows the layout of the Python application:
    - [Py] and [Hashlib]: the fragment of the Python runtime and standard
      library the application relies on ([str] as a sequence of code
      points, [strip], [lower], UTF-8, HMAC-SHA256);
    - the pydantic models of [app/models/schemas.py] and the settings;
    - the two service classes, [TelexService] and [YorubaAgent];
    - the service singletons and the start of the application ([main.py]);
    - the router of [app/api/webhook.py] and its background task;
    - the routes of [app/api/messages.py] and [app/api/agent.py].

    The messaging provider and the AI provider are oracles gathered in a
    [World]; every call made to them is recorded in a chronological trace
    of [Effect]s. Logging is not modelled. *)

From Stdlib Require Import ZArith NArith Lia Bool.
From Stdlib Require Import Init.Byte.
From stdpp Require Import base option list gmap strings pretty.

(* ===================================================================== *)
(** * Python runtime                                                      *)
(* ===================================================================== *)

(** A Python [str] is a sequence of Unicode code points; a [bytes] object a
    sequence of octets. *)
Definition pystr : Type := list N.
Definition pybytes : Type := list byte.

Module Py.
Local Open Scope N_scope.

(** [str.isspace] on one code point: the characters CPython lists in
    [_PyUnicode_IsWhitespace]. *)
Definition isspace (c : N) : bool :=
  ((0x09 <=? c) && (c <=? 0x0D)) || ((0x1C <=? c) && (c <=? 0x20))
  || (c =? 0x85) || (c =? 0xA0) || (c =? 0x1680)
  || ((0x2000 <=? c) && (c <=? 0x200A))
  || (c =? 0x2028) || (c =? 0x2029) || (c =? 0x202F) || (c =? 0x205F)
  || (c =? 0x3000).

(** [s.lstrip()], [s.rstrip()], [s.strip()] with no argument. *)
Fixpoint lstrip (s : pystr) : pystr :=
  match s with
  | [] => []
  | c :: s' => if isspace c then lstrip s' else s
  end.

Definition rstrip (s : pystr) : pystr := rev (lstrip (rev s)).

Definition strip (s : pystr) : pystr := rstrip (lstrip s).

(** [s.isascii()]. *)
Definition isascii (s : pystr) : bool := forallb (fun c => c <? 128) s.

(** Lower-casing of one ASCII code point. *)
Definition ascii_lower (c : N) : N :=
  if (0x41 <=? c) && (c <=? 0x5A) then c + 32 else c.

(** [s.lower()]. CPython lower-cases an ASCII string character by
    character and sends any other string through the case mapping of the
    Unicode database; that mapping is no part of the repository and is
    the parameter [unicode_lower]. *)
Definition lower (unicode_lower : pystr -> pystr) (s : pystr) : pystr :=
  if isascii s then map ascii_lower s else unicode_lower s.

(** Truthiness of a [str] and of an [Optional[str]]. *)
Definition truthy (s : pystr) : bool :=
  match s with [] => false | _ :: _ => true end.

Definition truthy_opt (o : option pystr) : bool :=
  match o with None => false | Some s => truthy s end.

(** [a or b] with [a] and [b] both [Optional[str]], and with [b] a [str]. *)
Definition or_else (a b : option pystr) : option pystr :=
  if truthy_opt a then a else b.

Definition or_str (a : option pystr) (b : pystr) : pystr :=
  match a with
  | Some s => if truthy s then s else b
  | None => b
  end.

(** ** UTF-8 *)

Definition octet (n : N) : byte :=
  match Byte.of_N n with Some b => b | None => x00 end.

(** [chr(c).encode()]: lone surrogates and values past U+10FFFF have no
    encoding. *)
Definition encode_cp (c : N) : option (list N) :=
  if c <? 0x80 then Some [c]
  else if c <? 0x800 then Some [0xC0 + c / 64; 0x80 + c mod 64]
  else if c <? 0x10000 then
    if (0xD800 <=? c) && (c <=? 0xDFFF) then None
    else Some [0xE0 + c / 4096; 0x80 + (c / 64) mod 64; 0x80 + c mod 64]
  else if c <? 0x110000 then
    Some [0xF0 + c / 262144; 0x80 + (c / 4096) mod 64;
          0x80 + (c / 64) mod 64; 0x80 + c mod 64]
  else None.

(** [s.encode()]; [None] stands for [UnicodeEncodeError]. *)
Fixpoint encode (s : pystr) : option pybytes :=
  match s with
  | [] => Some []
  | c :: s' =>
      match encode_cp c, encode s' with
      | Some bs, Some r => Some (map octet bs ++ r)
      | _, _ => None
      end
  end.

(** Decoding of well-formed UTF-8, used to read the string literals of the
    source (this file is UTF-8, as the Python sources are). *)
Fixpoint decode (bs : list N) : pystr :=
  match bs with
  | [] => []
  | b0 :: r =>
      if b0 <? 0x80 then b0 :: decode r
      else if b0 <? 0xE0 then
        match r with
        | b1 :: r' => ((b0 - 0xC0) * 64 + (b1 - 0x80)) :: decode r'
        | _ => []
        end
      else if b0 <? 0xF0 then
        match r with
        | b1 :: b2 :: r' =>
            ((b0 - 0xE0) * 4096 + (b1 - 0x80) * 64 + (b2 - 0x80)) :: decode r'
        | _ => []
        end
      else
        match r with
        | b1 :: b2 :: b3 :: r' =>
            ((b0 - 0xF0) * 262144 + (b1 - 0x80) * 4096
             + (b2 - 0x80) * 64 + (b3 - 0x80)) :: decode r'
        | _ => []
        end
  end.

(** A source literal. *)
Definition lit (s : string) : pystr :=
  decode (map Byte.to_N (String.list_byte_of_string s)).
End Py.

Notation "'u' s" := (Py.lit s%string) (at level 1, s at level 0, only parsing).

(* ===================================================================== *)
(** * [hashlib] and [hmac]                                                *)
(* ===================================================================== *)

(** SHA-256 (FIPS 180-4) on 32-bit words held in [Z], every addition reduced
    modulo [2^32], and HMAC (RFC 2104) over it: what
    [hmac.new(key, msg, hashlib.sha256)] computes. *)
Module Hashlib.
Local Open Scope Z_scope.

Definition w32 (x : Z) : Z := x mod 2 ^ 32.

Definition rotr (n x : Z) : Z :=
  Z.lor (Z.shiftr x n) (w32 (Z.shiftl x (32 - n))).

Definition Ch (x y z : Z) : Z :=
  Z.lxor (Z.land x y) (Z.land (Z.lxor x 0xFFFFFFFF) z).
Definition Maj (x y z : Z) : Z :=
  Z.lxor (Z.lxor (Z.land x y) (Z.land x z)) (Z.land y z).
Definition bsig0 (x : Z) : Z := Z.lxor (Z.lxor (rotr 2 x) (rotr 13 x)) (rotr 22 x).
Definition bsig1 (x : Z) : Z := Z.lxor (Z.lxor (rotr 6 x) (rotr 11 x)) (rotr 25 x).
Definition ssig0 (x : Z) : Z := Z.lxor (Z.lxor (rotr 7 x) (rotr 18 x)) (Z.shiftr x 3).
Definition ssig1 (x : Z) : Z := Z.lxor (Z.lxor (rotr 17 x) (rotr 19 x)) (Z.shiftr x 10).

(** The round constants are the fractional parts of the cube roots of the
    first 64 primes, the initial state those of the square roots of the
    first 8; they are computed here rather than tabulated. *)
Definition is_prime (n : Z) : bool :=
  (1 <? n) && forallb (fun d => negb (n mod d =? 0))
                      (map Z.of_nat (seq 2 (Z.to_nat n - 2))).

Definition primes64 : list Z :=
  Eval vm_compute in take 64 (filter (fun n => is_prime n = true) (map Z.of_nat (seq 2 310))).

Fixpoint icbrt_bits (k : nat) (n r : Z) : Z :=
  match k with
  | O => r
  | S k' =>
      let c := r + 2 ^ Z.of_nat k' in
      icbrt_bits k' n (if c * c * c <=? n then c else r)
  end.

Definition K256 : list Z :=
  Eval vm_compute in map (fun p => w32 (icbrt_bits 48 (p * 2 ^ 96) 0)) primes64.

Definition H256 : list Z :=
  Eval vm_compute in map (fun p => w32 (Z.sqrt (p * 2 ^ 64))) (take 8 primes64).

Definition word_at (ws : list Z) (i : nat) : Z := nth i ws 0.

(** The 64-word message schedule of one 16-word block. *)
Definition schedule (block : list Z) : list Z :=
  fold_left
    (fun ws t =>
       ws ++ [w32 (ssig1 (word_at ws (t - 2)) + word_at ws (t - 7)
                   + ssig0 (word_at ws (t - 15)) + word_at ws (t - 16))])
    (seq 16 48) block.

Definition round (st : list Z) (kw : Z * Z) : list Z :=
  match st with
  | [a; b; c; d; e; f; g; h] =>
      let t1 := w32 (h + bsig1 e + Ch e f g + kw.1 + kw.2) in
      let t2 := w32 (bsig0 a + Maj a b c) in
      [w32 (t1 + t2); a; b; c; w32 (d + t1); e; f; g]
  | _ => st
  end.

Definition compress (st block : list Z) : list Z :=
  zip_with (fun x y => w32 (x + y)) st
           (fold_left round (zip K256 (schedule block)) st).

Definition be32 (bs : list Z) : Z :=
  fold_left (fun acc b => acc * 256 + b) bs 0.

Fixpoint words (n : nat) (bs : list Z) : list Z :=
  match n with
  | O => []
  | S n' => be32 (take 4 bs) :: words n' (drop 4 bs)
  end.

Fixpoint blocks (n : nat) (bs : list Z) : list (list Z) :=
  match n with
  | O => []
  | S n' => words 16 (take 64 bs) :: blocks n' (drop 64 bs)
  end.

Definition be_bytes (k : nat) (x : Z) : list Z :=
  map (fun i => Z.shiftr x (8 * Z.of_nat i) mod 256) (rev (seq 0 k)).

Definition pad (msg : list Z) : list Z :=
  let l := Z.of_nat (length msg) in
  msg ++ [0x80] ++ replicate (Z.to_nat ((55 - l) mod 64)) 0 ++ be_bytes 8 (8 * l).

Definition sha256_octets (msg : list Z) : list Z :=
  let p := pad msg in
  concat (map (be_bytes 4)
              (fold_left compress (blocks (length p / 64) p) H256)).

Definition hmac_octets (key msg : list Z) : list Z :=
  let k0 := if 64 <? Z.of_nat (length key) then sha256_octets key else key in
  let k := k0 ++ replicate (64 - length k0) 0 in
  sha256_octets (map (Z.lxor 0x5C) k ++ sha256_octets (map (Z.lxor 0x36) k ++ msg)).

Definition of_bytes (bs : pybytes) : list Z := map (fun b => Z.of_N (Byte.to_N b)) bs.
Definition to_bytes (zs : list Z) : pybytes := map (fun z => Py.octet (Z.to_N z)) zs.

Definition sha256 (msg : pybytes) : pybytes := to_bytes (sha256_octets (of_bytes msg)).

(** The digest of [hmac.new(key, msg, hashlib.sha256)]. *)
Definition hmac_sha256 (key msg : pybytes) : pybytes :=
  to_bytes (hmac_octets (of_bytes key) (of_bytes msg)).

Definition hexdigit (n : N) : N := (if n <? 10 then 48 + n else 87 + n)%N.

(** [.hexdigest()]: two lower-case hexadecimal digits per octet. *)
Definition hex (bs : pybytes) : pystr :=
  concat (map (fun b => [hexdigit (Byte.to_N b / 16); hexdigit (Byte.to_N b mod 16)%N]) bs).

(** [hmac.compare_digest] on two [str]: [None] stands for the [TypeError]
    raised when either holds a non-ASCII character. *)
Definition compare_digest (a b : pystr) : option bool :=
  if Py.isascii a && Py.isascii b then Some (bool_decide (a = b)) else None.
End Hashlib.

Definition ascii_bytes (s : string) : pybytes := String.list_byte_of_string s.

(* ===================================================================== *)
(** * [app/models/schemas.py]                                             *)
(* ===================================================================== *)

Inductive MessageType := TEXT | IMAGE | VIDEO | AUDIO | FILE | LOCATION.

(** The closed enumeration of event kinds. *)
Inductive EventType :=
  MESSAGE | MESSAGE_DELIVERED | MESSAGE_READ | USER_JOINED | USER_LEFT.

#[export] Instance EventType_eq_dec : EqDecision EventType.
Proof. solve_decision. Defined.

Definition EventType_members : list EventType :=
  [MESSAGE; MESSAGE_DELIVERED; MESSAGE_READ; USER_JOINED; USER_LEFT].

Definition EventType_name (e : EventType) : pystr :=
  match e with
  | MESSAGE => u"MESSAGE"
  | MESSAGE_DELIVERED => u"MESSAGE_DELIVERED"
  | MESSAGE_READ => u"MESSAGE_READ"
  | USER_JOINED => u"USER_JOINED"
  | USER_LEFT => u"USER_LEFT"
  end.

Definition EventType_value (e : EventType) : pystr :=
  match e with
  | MESSAGE => u"message"
  | MESSAGE_DELIVERED => u"message.delivered"
  | MESSAGE_READ => u"message.read"
  | USER_JOINED => u"user.joined"
  | USER_LEFT => u"user.left"
  end.

(** [EventType(value)]: the member with that value, [None] for the
    [ValueError] of a value that no member has. *)
Definition EventType_of_value (value : pystr) : option EventType :=
  List.find (fun e => bool_decide (EventType_value e = value)) EventType_members.

(** [f"{event.event_type}"]: since Python 3.11 a [str]-mixin enum member is
    formatted as [Class.MEMBER]. *)
Definition EventType_format (e : EventType) : pystr :=
  u"EventType." ++ EventType_name e.

Module User.
Record t := mk {
  id : pystr;
  username : option pystr;
  first_name : option pystr;
  last_name : option pystr;
  language_code : option pystr
}.
End User.

(** [timestamp] and [metadata] are never read by the pipeline and are left
    out of [Message]; so are [timestamp] and [data] of [WebhookEvent] and
    [data] of [ActionResponse]. *)
Module Message.
Record t := mk {
  message_id : pystr;
  from_user : User.t;
  chat_id : pystr;
  text : option pystr;
  message_type : MessageType;
  reply_to_message_id : option pystr
}.
End Message.

Module WebhookEvent.
Record t := mk {
  event_id : pystr;
  event_type : EventType;
  message : option Message.t
}.
End WebhookEvent.

Module MessageResponse.
Record t := mk {
  chat_id : pystr;
  text : pystr;
  reply_to_message_id : option pystr;
  parse_mode : option pystr;
  disable_web_page_preview : bool
}.

(** [MessageResponse(chat_id=..., text=..., reply_to_message_id=...)] with
    the defaults of the two other fields. *)
Definition new (chat_id text : pystr) (reply_to_message_id : option pystr) : t :=
  mk chat_id text reply_to_message_id (Some (u"Markdown")) false.
End MessageResponse.

Module ActionResponse.
Record t := mk { success : bool; message : option pystr }.
End ActionResponse.

(* ===================================================================== *)
(** * [app/core/config.py]                                                *)
(* ===================================================================== *)

Module Settings.
Record t := mk {
  telex_api_key : pystr;
  telex_webhook_secret : pystr;
  telex_bot_id : pystr;
  telex_api_url : pystr
}.

(** The field defaults, taken when the environment sets nothing. *)
Definition default : t := mk [] [] [] (u"https://api.telex.im/v1").
End Settings.

(* ===================================================================== *)
(** * External services and effects                                       *)
(* ===================================================================== *)

(** The exceptions of the model, all deriving from [Exception]. *)
Inductive PyException :=
| HTTPStatusError (status_code : N)
| RequestError
| ProviderError.

(** The JSON body the messaging provider answers with: opaque to the code. *)
Definition DeliveryResult : Type := pystr.

(** What [agent.run] returns: an object that may carry [output], [data] or
    [content], and has a [str()] rendering. *)
Module RunResult.
Record t := mk {
  output : option pystr;
  data : option pystr;
  content : option pystr;
  str : pystr
}.
End RunResult.

(** One entry per call that leaves the process. *)
Inductive Effect :=
| PostActions (chat_id : pystr)            (* POST {api_url}/actions, typing *)
| AgentRun (prompt : pystr)                (* self.agent.run(prompt) *)
| PostMessages (m : MessageResponse.t).    (* POST {api_url}/messages *)

(** The outside world: how each provider answers a call, given everything
    that was sent before. *)
Record World := {
  actions_reply : list Effect -> pystr -> option PyException;
  messages_reply : list Effect -> MessageResponse.t -> PyException + DeliveryResult;
  agent_reply : list Effect -> pystr -> PyException + RunResult.t
}.

(** Coroutines of the application: they extend the trace and either raise
    or return. *)
Definition IO (A : Type) : Type := list Effect -> (PyException + A) * list Effect.

#[export] Instance IO_ret : MRet IO := fun A (x : A) tr => (inr x, tr).

#[export] Instance IO_bind : MBind IO := fun A B (f : A -> IO B) (m : IO A) tr =>
  match m tr with
  | (inl e, tr') => (inl e, tr')
  | (inr x, tr') => f x tr'
  end.

(** [try: body / except Exception as e: handler e]. *)
Definition try_except {A} (body : IO A) (handler : PyException -> IO A) : IO A :=
  fun tr =>
    match body tr with
    | (inl e, tr') => handler e tr'
    | (inr x, tr') => (inr x, tr')
    end.

(** One call to a provider: record it, then return or raise as the world
    decides. *)
Definition call {A} (e : Effect) (reply : list Effect -> PyException + A) : IO A :=
  fun tr => (reply tr, tr ++ [e]).

Definition pass : IO unit := mret tt.

Definition nl : pystr := [10%N].

(** The reply of [get_response] when the provider call fails. *)
Definition agent_apology : pystr :=
  u"Mo dùpẹ́ (Thank you) for your question. I encountered an issue while processing it. Please try rephrasing your question or ask about a specific aspect of Yoruba history and culture.".

(** The text returned by [get_greeting_response]. *)
Definition greeting_text : pystr :=
  u"Ẹ káàbọ̀! (Welcome!) 🌟" ++ nl ++ nl
  ++ u"I am Orunmila, your guide to Yoruba history and culture. I'm here to answer your questions about:" ++ nl ++ nl
  ++ u"• Yoruba history and ancient kingdoms" ++ nl
  ++ u"• Cultural practices and traditions" ++ nl
  ++ u"• Religion and spirituality (Ifa, Orisha)" ++ nl
  ++ u"• Language, proverbs, and sayings" ++ nl
  ++ u"• Art, music, and dance" ++ nl
  ++ u"• Festivals and celebrations" ++ nl
  ++ u"• Notable historical figures" ++ nl ++ nl
  ++ u"Feel free to ask me anything about Yoruba heritage!".

(** The text returned by [get_help_response]. *)
Definition help_text : pystr :=
  u"📚 **How to Ask Questions**" ++ nl ++ nl
  ++ u"Here are some example questions you can ask:" ++ nl ++ nl
  ++ u"**History:**" ++ nl
  ++ u"• Who was Oduduwa?" ++ nl
  ++ u"• Tell me about the Oyo Empire" ++ nl
  ++ u"• What is the significance of Ile-Ife?" ++ nl ++ nl
  ++ u"**Culture:**" ++ nl
  ++ u"• What are Yoruba naming ceremonies like?" ++ nl
  ++ u"• Explain the chieftaincy system" ++ nl ++ nl
  ++ u"**Religion:**" ++ nl
  ++ u"• Who is Sango?" ++ nl
  ++ u"• What is Ifa divination?" ++ nl ++ nl
  ++ u"**Arts:**" ++ nl
  ++ u"• What are Gelede masks?" ++ nl
  ++ u"• Tell me about Adire cloth" ++ nl ++ nl
  ++ u"**Language:**" ++ nl
  ++ u"• Share a Yoruba proverb" ++ nl
  ++ u"• How do you say hello in Yoruba?" ++ nl ++ nl
  ++ u"Just ask your question naturally, and I'll do my best to help!".

(** The text of the fallback delivery of [process_message]. *)
Definition delivery_apology : pystr :=
  u"Mo tọrọ gafara (I apologize). An error occurred while processing your message. Please try again.".

(* ===================================================================== *)
(** * [app/services/telex_service.py]                                     *)
(* ===================================================================== *)

(** [TelexService.send_message]: both [except] clauses log and re-raise. *)
Definition send_message (w : World) (message_response : MessageResponse.t)
  : IO DeliveryResult :=
  call (PostMessages message_response)
       (fun tr => messages_reply w tr message_response).

Definition send_text_message (w : World) (chat_id text : pystr)
    (reply_to_message_id : option pystr) : IO DeliveryResult :=
  let message := MessageResponse.new chat_id text reply_to_message_id in
  send_message w message.

(** [TelexService.send_typing_action]: a failure is logged and dropped. *)
Definition send_typing_action (w : World) (chat_id : pystr) : IO unit :=
  try_except
    (call (PostActions chat_id)
          (fun tr => match actions_reply w tr chat_id with
                     | Some e => inl e
                     | None => inr tt
                     end))
    (fun _ => pass).

(** [TelexService.validate_webhook_signature]. The [try] block runs in the
    [option] monad, [None] standing for a raised exception
    ([UnicodeEncodeError] of [encode], [TypeError] of [compare_digest]), and
    the [except Exception] clause turns it into [False]. *)
Definition validate_webhook_signature (settings : Settings.t)
    (payload signature : pystr) : bool :=
  if negb (Py.truthy (Settings.telex_webhook_secret settings)) then true
  else
    match
      key ← Py.encode (Settings.telex_webhook_secret settings);
      msg ← Py.encode payload;
      let expected_signature := Hashlib.hex (Hashlib.hmac_sha256 key msg) in
      Hashlib.compare_digest signature expected_signature
    with
    | Some b => b
    | None => false
    end.

(* ===================================================================== *)
(** * [app/services/yoruba_agent.py]                                      *)
(* ===================================================================== *)

(** The values held by a [user_context] dictionary. *)
Inductive pyval := PyNone | PyStr (s : pystr).

#[export] Instance pyval_eq_dec : EqDecision pyval.
Proof. solve_decision. Defined.

Definition of_optional (o : option pystr) : pyval :=
  match o with Some s => PyStr s | None => PyNone end.

(** [f"{v}"]. *)
Definition format_value (v : pyval) : pystr :=
  match v with PyNone => u"None" | PyStr s => s end.

(** Truthiness of a dictionary. *)
Definition dict_truthy (d : gmap pystr pyval) : bool := negb (bool_decide (d = ∅)).

(** The prompt built at the head of [get_response]. *)
Definition enhanced_question (question : pystr)
    (user_context : option (gmap pystr pyval)) : pystr :=
  match user_context with
  | Some d =>
      if dict_truthy d then
        let user_name := default (PyStr (u"friend")) (d !! u"name") in
        u"Question from " ++ format_value user_name ++ u": " ++ question
      else question
  | None => question
  end.

(** The [hasattr] cascade that reads the text out of the run result. *)
Definition response_text_of (result : RunResult.t) : pystr :=
  match RunResult.output result with
  | Some s => s
  | None =>
      match RunResult.data result with
      | Some s => s
      | None =>
          match RunResult.content result with
          | Some s => s
          | None => RunResult.str result
          end
      end
  end.

(** [YorubaAgent.get_response]. *)
Definition get_response (w : World) (question : pystr)
    (user_context : option (gmap pystr pyval)) : IO pystr :=
  try_except
    (let enhanced := enhanced_question question user_context in
     result ← call (AgentRun enhanced) (fun tr => agent_reply w tr enhanced);
     mret (response_text_of result))
    (fun _ => mret agent_apology).

Definition get_greeting_response : IO pystr := mret greeting_text.

Definition get_help_response : IO pystr := mret help_text.

(* ===================================================================== *)
(** * [app/api/webhook.py]                                                *)
(* ===================================================================== *)

(** How a request to the route ends: the handler returns its
    [ActionResponse] (status 200), the handler raises an [HTTPException], or
    FastAPI raises [RequestValidationError] without calling the handler. The
    last two are error responses once the exception handlers of [main.py]
    have run; their rendering is not modelled. *)
Inductive HttpResponse :=
| Ok200 (r : ActionResponse.t)
| HTTPException (status_code : N) (detail : pystr)
| RequestValidationError.

(** The request as the handler can see it. *)
Module Request.
Record t := mk { headers : gmap pystr pystr; body : pystr }.

(** [request.headers.get("X-Telex-Signature", "")]. *)
Definition signature (r : t) : pystr :=
  default [] (headers r !! u"X-Telex-Signature").
End Request.

(** [background_tasks.add_task(process_message, event)]. *)
Inductive BackgroundTask := ProcessMessage (event : WebhookEvent.t).

(** The branch taken by the command dispatch of [process_message]. *)
Inductive Intent := Greeting | Help | General.

Definition greeting_triggers : list pystr :=
  [u"/start"; u"hello"; u"hi"; u"hey"; u"greetings"].

Definition help_triggers : list pystr :=
  [u"/help"; u"help"; u"what can you do"].

(** [x in [a, b, ...]]. *)
Definition py_in {A} `{EqDecision A} (x : A) (l : list A) : bool :=
  bool_decide (x ∈ l).

(** [handle_telex_webhook]. Nothing in its [try] block raises, so the
    [except] clause (HTTP 500) is never entered; the signature check is
    commented out in the source and is therefore absent here. The second
    component lists the tasks added to [background_tasks]. *)
Definition handle_telex_webhook (event : WebhookEvent.t) (request : Request.t)
  : HttpResponse * list BackgroundTask :=
  if bool_decide (WebhookEvent.event_type event = MESSAGE)
     && bool_decide (is_Some (WebhookEvent.message event))
  then
    (Ok200 (ActionResponse.mk true (Some (u"Message received and being processed"))),
     [ProcessMessage event])
  else if py_in (WebhookEvent.event_type event) [MESSAGE_DELIVERED; MESSAGE_READ] then
    (Ok200 (ActionResponse.mk true
              (Some (u"Event " ++ EventType_format (WebhookEvent.event_type event)
                     ++ u" acknowledged"))),
     [])
  else if py_in (WebhookEvent.event_type event) [USER_JOINED; USER_LEFT] then
    (Ok200 (ActionResponse.mk true
              (Some (u"Event " ++ EventType_format (WebhookEvent.event_type event)
                     ++ u" acknowledged"))),
     [])
  else
    (Ok200 (ActionResponse.mk true (Some (u"Event type not handled"))), []).

Section Pipeline.
(** The Unicode case mapping behind [str.lower] (see [Py.lower]). *)
Variable unicode_lower : pystr -> pystr.

Definition lower : pystr -> pystr := Py.lower unicode_lower.

(** The [if]/[elif]/[else] over [message_text.lower()]. *)
Definition classify (message_text : pystr) : Intent :=
  if py_in (lower message_text) greeting_triggers then Greeting
  else if py_in (lower message_text) help_triggers then Help
  else General.

(** The [user_context] dictionary built for a general question. *)
Definition user_context_of (user : User.t) : gmap pystr pyval :=
  <[u"language" := of_optional (User.language_code user)]>
    (<[u"user_id" := PyStr (User.id user)]>
       (<[u"name" := PyStr (Py.or_str (Py.or_else (User.first_name user)
                                                   (User.username user))
                                      (u"friend"))]> ∅)).

(** The reply text of each branch. *)
Definition resolve_reply (w : World) (intent : Intent) (message_text : pystr)
    (user : User.t) : IO pystr :=
  match intent with
  | Greeting => get_greeting_response
  | Help => get_help_response
  | General =>
      let user_context := user_context_of user in
      get_response w message_text (Some user_context)
  end.

End Pipeline.

(* ===================================================================== *)
(** * [YorubaAgent.is_relevant_question]                                  *)
(* ===================================================================== *)





(* ===================================================================== *)
(** * Service singletons and application start ([main.py])                *)
(* ===================================================================== *)

(** The fields that [Settings] declares in [config.py]; reading any other
    attribute of [settings] raises [AttributeError]. *)
Definition Settings_fields : list string :=
  ["app_name"; "app_version"; "debug"; "host"; "port"; "openai_api_key";
   "telex_api_key"; "telex_webhook_secret"; "telex_bot_id"; "telex_api_url";
   "redis_url"; "redis_enabled"; "cors_origins"; "cors_allow_credentials";
   "cors_allow_methods"; "cors_allow_headers"; "log_level"]%string.

Definition Settings_hasattr (name : string) : bool :=
  bool_decide (name ∈ Settings_fields).

(** What can go wrong while a service object is built. *)
Inductive InitError :=
| AttributeError (cls attr : string)
| ModelError (message : pystr).

(** [str(e)]. *)
Definition InitError_str (e : InitError) : pystr :=
  match e with
  | AttributeError cls attr =>
      u"'" ++ Py.lit cls ++ u"' object has no attribute '" ++ Py.lit attr ++ u"'"
  | ModelError message => message
  end.

(** The one agent object of the process; what it answers is in [World]. *)
Inductive YorubaAgent : Set := YorubaAgentInstance.

Inductive TelexService : Set := TelexServiceInstance.

(** [YorubaAgent.__init__]: it reads [settings.gemini_api_key], then builds
    the Gemini model and the agent; [model_init] is how that construction
    ends ([None]: it returns). Every exception is logged and re-raised. *)
Definition YorubaAgent_init (model_init : option InitError) : InitError + YorubaAgent :=
  if Settings_hasattr "gemini_api_key" then
    match model_init with
    | Some e => inl e
    | None => inr YorubaAgentInstance
    end
  else inl (AttributeError "Settings" "gemini_api_key").

(** [get_yoruba_agent] over the module global [_agent_instance];
    [construct] is how the call [YorubaAgent()] ends, should it be made. *)
Definition get_yoruba_agent (construct : InitError + YorubaAgent)
    (_agent_instance : option YorubaAgent)
  : (InitError + YorubaAgent) * option YorubaAgent :=
  match _agent_instance with
  | Some agent => (inr agent, _agent_instance)
  | None =>
      match construct with
      | inr agent => (inr agent, Some agent)
      | inl e => (inl e, None)
      end
  end.

(** [TelexService.__init__] only reads declared settings, so
    [get_telex_service] always returns. *)
Definition get_telex_service (_telex_service : option TelexService)
  : TelexService * option TelexService :=
  match _telex_service with
  | Some service => (service, _telex_service)
  | None => (TelexServiceInstance, Some TelexServiceInstance)
  end.

(** The two module globals. *)
Record Globals := {
  agent_instance : option YorubaAgent;
  telex_instance : option TelexService
}.

Definition fresh_process : Globals := Build_Globals None None.

(** The start-up half of [lifespan]: [inl] when it re-raises, which keeps
    the application from starting. *)
Definition lifespan_startup (construct : InitError + YorubaAgent) (g : Globals)
  : (InitError + unit) * Globals :=
  match get_yoruba_agent construct (agent_instance g) with
  | (inl e, a) => (inl e, Build_Globals a (telex_instance g))
  | (inr _, a) =>
      let '(_, t) := get_telex_service (telex_instance g) in
      (inr tt, Build_Globals a t)
  end.

(* ===================================================================== *)
(** * [process_message]: the background task of [app/api/webhook.py]      *)
(* ===================================================================== *)

(** The [except Exception] clause of [process_message]: one attempt to send
    the apology to the chat, in reply to the message; the bare
    [except: pass] around it swallows a failure. The clause is entered only
    once [message] and [chat_id] are bound. *)
Definition send_apology (w : World) (message : Message.t) : IO unit :=
  try_except
    (send_text_message w (Message.chat_id message) delivery_apology
                       (Some (Message.message_id message));;
     pass)
    (fun _ => pass).

(** How a background task ends: the module global [_agent_instance] it
    leaves behind, then its outcome and the trace. *)
Definition TaskResult : Type := option YorubaAgent * ((PyException + unit) * list Effect).

(** [process_message] over the module global [_agent_instance]; [construct]
    is how the call [YorubaAgent()] ends, should [get_yoruba_agent] make it.
    The first statement of the [try] block that can raise is
    [agent = get_yoruba_agent()]: it comes after [chat_id] and
    [message_text] are bound and before the typing indicator, and what it
    raises is caught by the same [except Exception] clause as a failed
    delivery. [get_telex_service()] always returns. *)
Definition process_message (unicode_lower : pystr -> pystr)
    (construct : InitError + YorubaAgent) (w : World) (event : WebhookEvent.t)
    (_agent_instance : option YorubaAgent) (tr : list Effect) : TaskResult :=
  match WebhookEvent.message event with
  | None => (_agent_instance, pass tr)
  | Some message =>
      match Message.text message with
      | None => (_agent_instance, pass tr)
      | Some text =>
          if negb (Py.truthy text) then (_agent_instance, pass tr)
          else
            let user := Message.from_user message in
            let chat_id := Message.chat_id message in
            let message_text := Py.strip text in
            match get_yoruba_agent construct _agent_instance with
            | (inl _, store) => (store, send_apology w message tr)
            | (inr agent, store) =>
                (store,
                 try_except
                   (send_typing_action w chat_id;;
                    response_text ← resolve_reply w (classify unicode_lower message_text)
                                                  message_text user;
                    send_text_message w chat_id response_text
                                      (Some (Message.message_id message));;
                    pass)
                   (fun _ => send_apology w message)
                   tr)
            end
      end
  end.

Definition run_task (unicode_lower : pystr -> pystr)
    (construct : InitError + YorubaAgent) (w : World) (task : BackgroundTask)
    (_agent_instance : option YorubaAgent) (tr : list Effect) : TaskResult :=
  match task with
  | ProcessMessage event => process_message unicode_lower construct w event _agent_instance tr
  end.

(** The background tasks of one request, run in turn after the response; a
    task that raises ends the run. *)
Fixpoint run_background (unicode_lower : pystr -> pystr)
    (construct : InitError + YorubaAgent) (w : World) (tasks : list BackgroundTask)
    (_agent_instance : option YorubaAgent) (tr : list Effect) : TaskResult :=
  match tasks with
  | [] => (_agent_instance, pass tr)
  | task :: rest =>
      match run_task unicode_lower construct w task _agent_instance tr with
      | (store, (inr _, tr')) => run_background unicode_lower construct w rest store tr'
      | (store, (inl e, tr')) => (store, (inl e, tr'))
      end
  end.

(* ===================================================================== *)
(** * [app/api/messages.py] and [app/api/agent.py]                        *)
(* ===================================================================== *)

(** How a route function ends: it returns a body (status 200) or raises
    [HTTPException]. *)
Inductive RouteResult (A : Type) :=
| Returns (body : A)
| RaisesHTTP (status_code : N) (detail : pystr).
Arguments Returns {A} body.
Arguments RaisesHTTP {A} status_code detail.

(** [str(len(xs))]. *)
Definition str_len {A} (xs : list A) : pystr := Py.lit (pretty (length xs)).

(** The routes below take [exception_str], the text [str(e)] of an
    exception raised by a provider call, which the libraries choose. *)


(** The [for] loop of [broadcast_message]: one guarded send per chat,
    results and errors appended in turn. *)
Fixpoint broadcast_loop (exception_str : PyException -> pystr) (w : World)
    (text : pystr) (chat_ids : list pystr)
    (results : list (pystr * DeliveryResult)) (errors : list (pystr * pystr))
  : IO (list (pystr * DeliveryResult) * list (pystr * pystr)) :=
  match chat_ids with
  | [] => mret (results, errors)
  | chat_id :: rest =>
      acc ← try_except
               (result ← send_text_message w chat_id text None;
                mret (results ++ [(chat_id, result)], errors))
               (fun e => mret (results, errors ++ [(chat_id, exception_str e)]));
      broadcast_loop exception_str w text rest acc.1 acc.2
  end.

Module Broadcast.
Record t := mk {
  success : bool;
  message : pystr;
  successful : list (pystr * DeliveryResult);
  failed : list (pystr * pystr);
  total : nat
}.
End Broadcast.

(** [POST /messages/broadcast]. Nothing outside the guarded send raises, so
    the outer [except] clause is never entered. *)
Definition broadcast_message (exception_str : PyException -> pystr) (w : World)
    (chat_ids : list pystr) (text : pystr) : IO Broadcast.t :=
  acc ← broadcast_loop exception_str w text chat_ids [] [];
  mret (Broadcast.mk
          (bool_decide (length acc.2 = 0))
          (u"Broadcast completed: " ++ str_len acc.1 ++ u" successful, "
           ++ str_len acc.2 ++ u" failed")
          acc.1 acc.2 (length chat_ids)).

Module QuestionRequest.
Record t := mk {
  question : pystr;
  user_name : option pystr;
  user_id : option pystr
}.
End QuestionRequest.

Module QuestionResponse.
Record t := mk { question : pystr; answer : pystr; timestamp : pystr }.
End QuestionResponse.

(** The [user_context] that [ask_question] prepares. *)
Definition ask_user_context (request : QuestionRequest.t) : option (gmap pystr pyval) :=
  if Py.truthy_opt (Py.or_else (QuestionRequest.user_name request)
                               (QuestionRequest.user_id request))
  then
    Some (<[u"user_id" := of_optional (QuestionRequest.user_id request)]>
            (<[u"name" := PyStr (Py.or_str (QuestionRequest.user_name request)
                                           (u"friend"))]> ∅))
  else None.

(** [POST /agent/ask]. [now] is the reading of the clock that stamps the
    answer; the agent global and the trace are threaded. *)
Definition ask_question (exception_str : PyException -> pystr)
    (construct : InitError + YorubaAgent) (now : pystr) (w : World)
    (request : QuestionRequest.t) (_agent_instance : option YorubaAgent)
    (tr : list Effect)
  : RouteResult QuestionResponse.t * option YorubaAgent * list Effect :=
  match get_yoruba_agent construct _agent_instance with
  | (inl e, g) =>
      (RaisesHTTP 500 (u"Failed to process question: " ++ InitError_str e), g, tr)
  | (inr agent, g) =>
      let user_context := ask_user_context request in
      match get_response w (QuestionRequest.question request) user_context tr with
      | (inr answer, tr') =>
          (Returns (QuestionResponse.mk (QuestionRequest.question request) answer now),
           g, tr')
      | (inl e, tr') =>
          (RaisesHTTP 500 (u"Failed to process question: " ++ exception_str e), g, tr')
      end
  end.

(** [GET /agent/greeting] and [GET /agent/help]: the text and the name of
    the agent. *)
Definition agent_name : pystr := u"Orunmila - Yoruba History & Culture AI".

Definition get_greeting (construct : InitError + YorubaAgent)
    (_agent_instance : option YorubaAgent)
  : RouteResult (pystr * pystr) * option YorubaAgent :=
  match get_yoruba_agent construct _agent_instance with
  | (inl e, g) => (RaisesHTTP 500 (u"Failed to get greeting: " ++ InitError_str e), g)
  | (inr agent, g) => (Returns (greeting_text, agent_name), g)
  end.

Definition get_help (construct : InitError + YorubaAgent)
    (_agent_instance : option YorubaAgent)
  : RouteResult (pystr * pystr) * option YorubaAgent :=
  match get_yoruba_agent construct _agent_instance with
  | (inl e, g) => (RaisesHTTP 500 (u"Failed to get help: " ++ InitError_str e), g)
  | (inr agent, g) => (Returns (help_text, agent_name), g)
  end.

(* ===================================================================== *)
(** * Vocabulary of the specification                                     *)
(* ===================================================================== *)

(** A text made of whitespace only (the empty text included). *)
Definition blank (s : pystr) : bool := forallb Py.isspace s.

(** The text carried by an event, if any. *)
Definition event_text (event : WebhookEvent.t) : option pystr :=
  message ← WebhookEvent.message event; Message.text message.

(** The display name as the specification words it: the first name, else
    the user name, else the literal "friend"; an empty name counts as
    missing, as it does for Python's [or]. *)
Definition display_name (user : User.t) : pystr :=
  match User.first_name user with
  | Some (c :: s) => c :: s
  | _ =>
      match User.username user with
      | Some (c :: s) => c :: s
      | _ => u"friend"
      end
  end.

(** The signature a request must carry: the hexadecimal HMAC-SHA256 of the
    payload under the configured secret, when both can be encoded. *)
Definition expected_signature (settings : Settings.t) (payload : pystr) : option pystr :=
  key ← Py.encode (Settings.telex_webhook_secret settings);
  msg ← Py.encode payload;
  Some (Hashlib.hex (Hashlib.hmac_sha256 key msg)).

(** No message is sent to the messaging provider. *)
Definition no_delivery (effects : list Effect) : Prop :=
  forall m, PostMessages m ∉ effects.

(** ** Sample data *)

(** A case mapping for closed examples; ASCII text never reaches it. *)
Definition no_case_mapping : pystr -> pystr := fun s => s.

(** Both providers answer. *)
Definition world_up : World := {|
  actions_reply := fun _ _ => None;
  messages_reply := fun _ _ => inr (u"{}");
  agent_reply := fun _ _ =>
    inr (RunResult.mk (Some (u"Oduduwa founded Ile-Ife.")) None None (u"AgentRunResult"))
|}.

(** The AI provider fails, the messaging provider answers. *)
Definition world_agent_down : World := {|
  actions_reply := fun _ _ => None;
  messages_reply := fun _ _ => inr (u"{}");
  agent_reply := fun _ _ => inl ProviderError
|}.

(** The messaging provider refuses every message. *)
Definition world_delivery_down : World := {|
  actions_reply := fun _ _ => Some RequestError;
  messages_reply := fun _ _ => inl (HTTPStatusError 503);
  agent_reply := fun _ _ =>
    inr (RunResult.mk (Some (u"Oduduwa founded Ile-Ife.")) None None (u"AgentRunResult"))
|}.

Definition sample_user : User.t := User.mk (u"U1") None None None None.

Definition sample_message (text : option pystr) : Message.t :=
  Message.mk (u"M1") sample_user (u"C1") text TEXT None.

Definition sample_event (text : option pystr) : WebhookEvent.t :=
  WebhookEvent.mk (u"E1") MESSAGE (Some (sample_message text)).

Definition sample_request : Request.t := Request.mk ∅ (u"{}").

Definition forged_request : Request.t :=
  Request.mk {[ u"X-Telex-Signature" := u"forged" ]} (u"{}").

Definition settings_with_secret (secret : pystr) : Settings.t :=
  Settings.mk [] secret [] (u"https://api.telex.im/v1").

(** ** Vocabulary for the remaining properties *)

(** The messages, prompts and typing indicators of a stretch of trace. *)
Definition delivered (effects : list Effect) : list MessageResponse.t :=
  omap (fun e => match e with PostMessages m => Some m | _ => None end) effects.

Definition prompts (effects : list Effect) : list pystr :=
  omap (fun e => match e with AgentRun p => Some p | _ => None end) effects.

Definition typings (effects : list Effect) : list pystr :=
  omap (fun e => match e with PostActions c => Some c | _ => None end) effects.

(** The same world with another answer to typing indicators. *)
Definition with_actions_reply (f : list Effect -> pystr -> option PyException)
    (w : World) : World :=
  {| actions_reply := f;
     messages_reply := messages_reply w;
     agent_reply := agent_reply w |}.

(** An event the pipeline acts on: a MESSAGE with a non-empty text. *)
Definition actionable (event : WebhookEvent.t) : bool :=
  bool_decide (WebhookEvent.event_type event = MESSAGE)
  && match event_text event with
     | Some (_ :: _) => true
     | _ => false
     end.

(** The fallback apology as the messaging provider receives it: to the chat
    of the message and in reply to it, with the defaults of
    [MessageResponse]. *)
Definition apology_to (message : Message.t) : MessageResponse.t :=
  MessageResponse.mk (Message.chat_id message) delivery_apology
                     (Some (Message.message_id message)) (Some (u"Markdown")) false.

(** The reply to a message with a text, when an agent is at hand: the
    typing indicator goes out first, then the branch of the stripped text
    decides the reply and whether the provider is asked. The first
    component is the reply text, the second what was sent before the
    delivery. *)
Definition reply_with_agent (unicode_lower : pystr -> pystr) (w : World)
    (message : Message.t) (text : pystr) (tr : list Effect) : pystr * list Effect :=
  let typing := PostActions (Message.chat_id message) in
  let prompt := u"Question from " ++ display_name (Message.from_user message)
                ++ u": " ++ Py.strip text in
  match classify unicode_lower (Py.strip text) with
  | Greeting => (greeting_text, [typing])
  | Help => (help_text, [typing])
  | General =>
      (match agent_reply w (tr ++ [typing]) prompt with
       | inr result => response_text_of result
       | inl _ => agent_apology
       end,
       [typing; AgentRun prompt])
  end.

(** How the sends of a broadcast end, one after the other. *)
Fixpoint send_outcomes (w : World) (text : pystr) (chat_ids : list pystr)
    (tr : list Effect) : list (pystr * (PyException + DeliveryResult)) :=
  match chat_ids with
  | [] => []
  | chat_id :: rest =>
      let m := MessageResponse.new chat_id text None in
      (chat_id, messages_reply w tr m) :: send_outcomes w text rest (tr ++ [PostMessages m])
  end.

Definition successes (outcomes : list (pystr * (PyException + DeliveryResult)))
  : list (pystr * DeliveryResult) :=
  omap (fun o => match o.2 with inr r => Some (o.1, r) | inl _ => None end) outcomes.

Definition failures (exception_str : PyException -> pystr)
    (outcomes : list (pystr * (PyException + DeliveryResult))) : list (pystr * pystr) :=
  omap (fun o => match o.2 with inl e => Some (o.1, exception_str e) | inr _ => None end)
       outcomes.

(** The prompt [ask_question] sends for a request. *)
Definition ask_prompt (request : QuestionRequest.t) : pystr :=
  match QuestionRequest.user_name request, QuestionRequest.user_id request with
  | Some (c :: name), _ =>
      u"Question from " ++ (c :: name) ++ u": " ++ QuestionRequest.question request
  | _, Some (_ :: _) =>
      u"Question from friend: " ++ QuestionRequest.question request
  | _, _ => QuestionRequest.question request
  end.

(** What a broadcast of [text] to [chat_ids] posts. *)
Definition broadcast_posts (text : pystr) (chat_ids : list pystr) : list Effect :=
  map (fun chat_id => PostMessages (MessageResponse.new chat_id text None)) chat_ids.

Definition hex_digits : pystr := u"0123456789abcdef".

(* ===================================================================== *)
(** * Checks of the runtime model                                         *)
(* ===================================================================== *)

Arguments Py.lit : simpl never.

Example lit_hi : u"hi" = [104; 105]%N.
Proof. reflexivity. Qed.

Example strip_hello : Py.strip (u"  HELLO ") = u"HELLO".
Proof. reflexivity. Qed.

Example encode_decode_apology :
  Py.encode delivery_apology
  = Some (ascii_bytes "Mo tọrọ gafara (I apologize). An error occurred while processing your message. Please try again.").
Proof. vm_compute. reflexivity. Qed.

(** FIPS 180-4 test vector. *)
Example sha256_abc :
  Hashlib.hex (Hashlib.sha256 (ascii_bytes "abc"))
  = u"ba7816bf8f01cfea414140de5dae2223b00361a396177a9cb410ff61f20015ad".
Proof. vm_compute. reflexivity. Qed.

(** RFC 4231, test case 2. *)
Example hmac_rfc4231_case2 :
  Hashlib.hex (Hashlib.hmac_sha256 (ascii_bytes "Jefe")
                                   (ascii_bytes "what do ya want for nothing?"))
  = u"5bdcc146bf60754e6a042426089575c75a003f089d2739839dec58b964ec3843".
Proof. vm_compute. reflexivity. Qed.

Example EventType_of_value_members :
  map (fun e => EventType_of_value (EventType_value e)) EventType_members
  = map Some EventType_members.
Proof. vm_compute. reflexivity. Qed.

(* ===================================================================== *)
(** * Facts about [strip] and [lower]                                     *)
(* ===================================================================== *)

Section StripFacts.
Import Py.

Lemma forallb_rev {A} (f : A -> bool) (l : list A) :
  forallb f (rev l) = forallb f l.
Proof.
  induction l as [|x l IH]; [done|]. simpl.
  rewrite forallb_app, IH. simpl. rewrite andb_true_r. apply andb_comm.
Qed.

Lemma lstrip_blank s : blank s = true -> lstrip s = [].
Proof.
  induction s as [|c s IH]; [done|]. simpl. intros [Hc Hs]%andb_true_iff.
  rewrite Hc. auto.
Qed.

Lemma lstrip_nil_blank s : lstrip s = [] -> blank s = true.
Proof.
  induction s as [|c s IH]; [done|]. simpl.
  destruct (isspace c); [auto | discriminate].
Qed.

Lemma lstrip_app_blank pre s : blank pre = true -> lstrip (pre ++ s) = lstrip s.
Proof.
  induction pre as [|c pre IH]; [done|]. simpl. intros [Hc Hs]%andb_true_iff.
  rewrite Hc. auto.
Qed.

Lemma lstrip_app_keep s post : lstrip s ≠ [] -> lstrip (s ++ post) = lstrip s ++ post.
Proof.
  induction s as [|c s IH]; [done|]. simpl.
  destruct (isspace c); auto.
Qed.

Lemma rstrip_app_blank s post : blank post = true -> rstrip (s ++ post) = rstrip s.
Proof.
  intros H. unfold rstrip. rewrite rev_app_distr, lstrip_app_blank; [done|].
  unfold blank. by rewrite forallb_rev.
Qed.

(** Whitespace around a text does not survive [strip]. *)
Lemma strip_padding pre s post :
  blank pre = true -> blank post = true -> strip (pre ++ s ++ post) = strip s.
Proof.
  intros Hpre Hpost. unfold strip. rewrite lstrip_app_blank by done.
  destruct (lstrip s) as [|c r] eqn:E.
  - rewrite lstrip_blank; [done|].
    unfold blank. rewrite forallb_app. apply lstrip_nil_blank in E.
    unfold blank in *. by rewrite E, Hpost.
  - rewrite lstrip_app_keep by (rewrite E; discriminate).
    rewrite E. by apply rstrip_app_blank.
Qed.

Lemma strip_blank s : blank s = true -> strip s = [].
Proof. intros H. unfold strip. by rewrite lstrip_blank. Qed.

(** Lower-casing an ASCII letter neither makes nor removes whitespace. *)
Lemma isspace_ascii_lower c : isspace (ascii_lower c) = isspace c.
Proof.
  unfold ascii_lower.
  destruct ((0x41 <=? c) && (c <=? 0x5A))%N eqn:E; [|done].
  apply andb_true_iff in E as [H1%N.leb_le H2%N.leb_le].
  unfold isspace.
  repeat match goal with
         | |- context [N.leb ?a ?b] => destruct (N.leb_spec a b); try lia
         | |- context [N.eqb ?a ?b] => destruct (N.eqb_spec a b); try lia
         end.
  all: reflexivity.
Qed.

Lemma lstrip_map_lower s : lstrip (map ascii_lower s) = map ascii_lower (lstrip s).
Proof.
  induction s as [|c s IH]; [done|]. simpl.
  rewrite isspace_ascii_lower. destruct (isspace c); [exact IH | done].
Qed.

Lemma strip_map_lower s : strip (map ascii_lower s) = map ascii_lower (strip s).
Proof.
  unfold strip, rstrip.
  by rewrite lstrip_map_lower, <- map_rev, lstrip_map_lower, map_rev.
Qed.

Lemma isascii_lstrip s : isascii s = true -> isascii (lstrip s) = true.
Proof.
  induction s as [|c s IH]; [done|]. simpl. intros H.
  destruct (isspace c); [|done].
  apply andb_true_iff in H as [_ H]. auto.
Qed.

Lemma isascii_strip s : isascii s = true -> isascii (strip s) = true.
Proof.
  intros H. unfold strip, rstrip, isascii. rewrite forallb_rev.
  apply isascii_lstrip. unfold isascii. rewrite forallb_rev. by apply isascii_lstrip.
Qed.

(** On ASCII text, [strip] then [lower] lower-cases letter by letter. *)
Lemma lower_strip_ascii unicode_lower s :
  isascii s = true -> lower unicode_lower (strip s) = strip (map ascii_lower s).
Proof.
  intros H. unfold lower. rewrite isascii_strip by done. by rewrite strip_map_lower.
Qed.
End StripFacts.

(* ===================================================================== *)
(** * Classification                                                      *)
(* ===================================================================== *)

Lemma classify_cases unicode_lower (message_text : pystr) :
  match classify unicode_lower message_text with
  | Greeting => lower unicode_lower message_text ∈ greeting_triggers
  | Help => lower unicode_lower message_text ∈ help_triggers
  | General => lower unicode_lower message_text ∉ greeting_triggers ++ help_triggers
  end.
Proof.
  unfold classify, py_in.
  destruct (bool_decide (lower unicode_lower message_text ∈ greeting_triggers)) eqn:G.
  { by apply bool_decide_eq_true in G. }
  destruct (bool_decide (lower unicode_lower message_text ∈ help_triggers)) eqn:H.
  { by apply bool_decide_eq_true in H. }
  apply bool_decide_eq_false in G, H. rewrite elem_of_app. tauto.
Qed.

Lemma triggers_disjoint (s : pystr) :
  s ∈ greeting_triggers -> s ∈ help_triggers -> False.
Proof.
  unfold greeting_triggers, help_triggers. rewrite !elem_of_cons, !elem_of_nil.
  intros G H.
  repeat match goal with H : _ \/ _ |- _ => destruct H end;
    try done; subst; vm_compute in *; discriminate.
Qed.

(** C5. Classification is a function of the text alone, it is trimmed and
    case-insensitive: the stripped, lower-cased text is a greeting trigger
    exactly when the branch is [Greeting], a help trigger exactly when it is
    [Help], and neither exactly when it is [General]; surrounding whitespace
    and (on ASCII text) letter case do not change the branch; ["  HELLO "]
    is a greeting and ["What can you do"] a request for help. *)
Theorem classification_trimmed_case_insensitive (unicode_lower : pystr -> pystr) :
  (forall text,
     classify unicode_lower (Py.strip text) = Greeting
     <-> lower unicode_lower (Py.strip text) ∈ greeting_triggers) /\
  (forall text,
     classify unicode_lower (Py.strip text) = Help
     <-> lower unicode_lower (Py.strip text) ∈ help_triggers) /\
  (forall text,
     classify unicode_lower (Py.strip text) = General
     <-> lower unicode_lower (Py.strip text) ∉ greeting_triggers ++ help_triggers) /\
  (forall pre text post,
     blank pre = true -> blank post = true ->
     classify unicode_lower (Py.strip (pre ++ text ++ post))
     = classify unicode_lower (Py.strip text)) /\
  (forall text text',
     Py.isascii text = true -> Py.isascii text' = true ->
     map Py.ascii_lower text = map Py.ascii_lower text' ->
     classify unicode_lower (Py.strip text) = classify unicode_lower (Py.strip text')) /\
  classify unicode_lower (Py.strip (u"  HELLO ")) = Greeting /\
  classify unicode_lower (Py.strip (u"What can you do")) = Help.
Proof.
  assert (cases := classify_cases unicode_lower).
  repeat apply conj.
  - intros text. specialize (cases (Py.strip text)). split; intros H.
    + by rewrite H in cases.
    + destruct (classify unicode_lower (Py.strip text)); [done| |].
      * destruct (triggers_disjoint _ H cases).
      * destruct cases. apply elem_of_app; auto.
  - intros text. specialize (cases (Py.strip text)). split; intros H.
    + by rewrite H in cases.
    + destruct (classify unicode_lower (Py.strip text)); [|done|].
      * destruct (triggers_disjoint _ cases H).
      * destruct cases. apply elem_of_app; auto.
  - intros text. specialize (cases (Py.strip text)). split; intros H.
    + by rewrite H in cases.
    + destruct (classify unicode_lower (Py.strip text)); [| |done];
        destruct H; apply elem_of_app; auto.
  - intros pre text post Hpre Hpost. by rewrite strip_padding.
  - intros text text' Ha Ha' Heq. unfold classify.
    change (lower unicode_lower) with (Py.lower unicode_lower).
    by rewrite !lower_strip_ascii, Heq.
  - vm_compute. reflexivity.
  - vm_compute. reflexivity.
Qed.

(** A tab, mixed case and a trailing newline around "hey". *)
Lemma classification_witness :
  classify no_case_mapping (Py.strip ([9%N] ++ u"hEy" ++ nl)) = Greeting
  /\ classify no_case_mapping (Py.strip (u"Tell me about Oyo")) = General.
Proof.
  destruct (classification_trimmed_case_insensitive no_case_mapping)
    as (Hg & _ & Hgen & Hpad & Hcase & _ & _).
  split.
  - rewrite Hpad by reflexivity.
    rewrite (Hcase (u"hEy") (u"hey")) by reflexivity.
    apply Hg. apply (bool_decide_eq_true_1 _). vm_compute. reflexivity.
  - apply Hgen. apply (bool_decide_eq_false_1 _). vm_compute. reflexivity.
Defined.

(* ===================================================================== *)
(** * The agent gateway                                                   *)
(* ===================================================================== *)

Ltac io_unfold :=
  unfold try_except, call, pass, mbind, IO_bind, mret, IO_ret in *.

(** [get_response] makes one call to the provider and always returns. *)
Lemma get_response_returns w question user_context tr :
  exists answer,
    get_response w question user_context tr
    = (inr answer, tr ++ [AgentRun (enhanced_question question user_context)]).
Proof.
  unfold get_response. io_unfold.
  destruct (agent_reply w tr _); eauto.
Qed.

(** C3. Whatever the question and the user context, when the call to the AI
    provider raises, [get_response] returns the fixed apology: it does not
    raise, and the one provider call is all it did. *)
Theorem get_response_apology_on_failure w question user_context tr e :
  agent_reply w tr (enhanced_question question user_context) = inl e ->
  get_response w question user_context tr
  = (inr agent_apology, tr ++ [AgentRun (enhanced_question question user_context)]).
Proof.
  intros H. unfold get_response. io_unfold. rewrite H. reflexivity.
Qed.

Lemma get_response_apology_witness :
  get_response world_agent_down (u"Who was Oduduwa?") None []
  = (inr agent_apology, [AgentRun (u"Who was Oduduwa?")]).
Proof.
  apply (get_response_apology_on_failure world_agent_down (u"Who was Oduduwa?")
           None [] ProviderError).
  reflexivity.
Defined.

Lemma user_context_name user :
  user_context_of user !! u"name" = Some (PyStr (display_name user)).
Proof.
  unfold user_context_of.
  rewrite lookup_insert_ne by (vm_compute; discriminate).
  rewrite lookup_insert_ne by (vm_compute; discriminate).
  rewrite lookup_insert_eq. f_equal. f_equal.
  unfold display_name, Py.or_str, Py.or_else, Py.truthy_opt, Py.truthy.
  destruct (User.first_name user) as [[|c s]|];
    destruct (User.username user) as [[|c' s']|]; reflexivity.
Qed.

Lemma user_context_truthy user : dict_truthy (user_context_of user) = true.
Proof.
  unfold dict_truthy, user_context_of. apply negb_true_iff, bool_decide_eq_false.
  apply insert_non_empty.
Qed.

Lemma enhanced_question_of_user question user :
  enhanced_question question (Some (user_context_of user))
  = u"Question from " ++ display_name user ++ u": " ++ question.
Proof.
  unfold enhanced_question. by rewrite user_context_truthy, user_context_name.
Qed.

(** C8. With a user context (a non-empty dictionary), the prompt sent to the
    provider is the question behind the one prefix "Question from NAME: ",
    NAME being the entry [name] of the context; for the context that
    [process_message] builds, NAME is the display name of the user; with no
    context (or an empty dictionary, which Python takes for none) the
    question is sent as it is. In each case the provider is called once,
    with that prompt. *)
Theorem prompt_is_question_with_attribution w question tr :
  (forall d : gmap pystr pyval,
     d ≠ ∅ ->
     (get_response w question (Some d) tr).2
     = tr ++ [AgentRun (u"Question from "
                        ++ format_value (default (PyStr (u"friend")) (d !! u"name"))
                        ++ u": " ++ question)]) /\
  (forall user,
     (get_response w question (Some (user_context_of user)) tr).2
     = tr ++ [AgentRun (u"Question from " ++ display_name user ++ u": " ++ question)]) /\
  (get_response w question None tr).2 = tr ++ [AgentRun question] /\
  (get_response w question (Some ∅) tr).2 = tr ++ [AgentRun question].
Proof.
  split; [|split; [|split]].
  - intros d Hd. destruct (get_response_returns w question (Some d) tr) as [a ->].
    cbn [snd]. unfold enhanced_question, dict_truthy.
    rewrite bool_decide_eq_false_2 by done. reflexivity.
  - intros user.
    destruct (get_response_returns w question (Some (user_context_of user)) tr) as [a ->].
    cbn [snd]. by rewrite enhanced_question_of_user.
  - destruct (get_response_returns w question None tr) as [a ->]. reflexivity.
  - destruct (get_response_returns w question (Some ∅) tr) as [a ->]. reflexivity.
Qed.

Lemma prompt_witness :
  (get_response world_up (u"Who was Oduduwa?")
     (Some (user_context_of (User.mk (u"U1") (Some (u"ade")) (Some (u"")) None None))) []).2
  = [AgentRun (u"Question from ade: Who was Oduduwa?")]
  /\ (get_response world_up (u"Who was Oduduwa?")
        (Some {[ u"user_id" := PyStr (u"U1") ]}) []).2
     = [AgentRun (u"Question from friend: Who was Oduduwa?")].
Proof.
  destruct (prompt_is_question_with_attribution world_up (u"Who was Oduduwa?") [])
    as (Hd & Hu & _ & _).
  split.
  - rewrite Hu. reflexivity.
  - rewrite Hd; [reflexivity|]. apply insert_non_empty.
Defined.

(* ===================================================================== *)
(** * The background task                                                 *)
(* ===================================================================== *)

(** The typing indicator is attempted once and never raises. *)
Lemma send_typing_action_returns w chat_id tr :
  send_typing_action w chat_id tr = (inr tt, tr ++ [PostActions chat_id]).
Proof.
  unfold send_typing_action. io_unfold.
  destruct (actions_reply w tr chat_id); reflexivity.
Qed.

(** The fallback is one delivery and never raises. *)
Lemma send_apology_returns w message tr :
  send_apology w message tr = (inr tt, tr ++ [PostMessages (apology_to message)]).
Proof.
  unfold send_apology, send_text_message, send_message. io_unfold.
  destruct (messages_reply w tr _); reflexivity.
Qed.

(** The reply text of a branch and what resolving it sends. *)
Lemma resolve_reply_value unicode_lower w message text tr :
  let tr1 := tr ++ [PostActions (Message.chat_id message)] in
  resolve_reply w (classify unicode_lower (Py.strip text)) (Py.strip text)
                (Message.from_user message) tr1
  = (inr (reply_with_agent unicode_lower w message text tr).1,
     tr ++ (reply_with_agent unicode_lower w message text tr).2).
Proof.
  cbv zeta. unfold reply_with_agent.
  destruct (classify unicode_lower (Py.strip text)); cbn [resolve_reply fst snd];
    try reflexivity.
  unfold get_response. io_unfold. rewrite enhanced_question_of_user.
  destruct (agent_reply w _ _); by rewrite <- app_assoc.
Qed.

Lemma reply_with_agent_sends unicode_lower w message text tr :
  exists middle,
    (reply_with_agent unicode_lower w message text tr).2
    = PostActions (Message.chat_id message) :: middle
    /\ (middle = [] \/ exists prompt, middle = [AgentRun prompt]).
Proof.
  unfold reply_with_agent.
  destruct (classify unicode_lower (Py.strip text)); cbn [snd]; eauto.
Qed.

Lemma no_delivery_nil : no_delivery [].
Proof. intros m. apply not_elem_of_nil. Qed.

Lemma no_delivery_agent_run prompt : no_delivery [AgentRun prompt].
Proof. intros m Hm. apply list_elem_of_singleton in Hm. discriminate. Qed.

(** [process_message] on a message with a non-empty text, path by path:
    when the agent cannot be had, the apology alone; otherwise the typing
    indicator, the reply of the branch, its delivery and, on a failed
    delivery, the apology. *)
Lemma process_message_unfold unicode_lower construct w event message c text store tr :
  WebhookEvent.message event = Some message ->
  Message.text message = Some (c :: text) ->
  process_message unicode_lower construct w event store tr
  = match get_yoruba_agent construct store with
    | (inl _, store') => (store', (inr tt, tr ++ [PostMessages (apology_to message)]))
    | (inr _, store') =>
        let reply := (reply_with_agent unicode_lower w message (c :: text) tr).1 in
        let tr_main := tr ++ (reply_with_agent unicode_lower w message (c :: text) tr).2 in
        let main :=
          MessageResponse.mk (Message.chat_id message) reply
                             (Some (Message.message_id message)) (Some (u"Markdown")) false in
        (store',
         (inr tt,
          tr_main ++ PostMessages main
                     :: match messages_reply w tr_main main with
                        | inl _ => [PostMessages (apology_to message)]
                        | inr _ => []
                        end))
    end.
Proof.
  intros Hm Ht. unfold process_message. rewrite Hm, Ht.
  cbn [Py.truthy negb].
  destruct (get_yoruba_agent construct store) as [[e|agent] store'].
  - by rewrite send_apology_returns.
  - cbv zeta. unfold try_except at 1. unfold mbind, IO_bind.
    rewrite send_typing_action_returns.
    rewrite (resolve_reply_value unicode_lower w message (c :: text) tr).
    unfold send_text_message, send_message, call, pass, mret, IO_ret, MessageResponse.new.
    destruct (messages_reply w _ _) as [e|r]; [|reflexivity].
    rewrite send_apology_returns. by rewrite <- app_assoc.
Qed.

(** The task never raises. *)
Lemma process_message_returns unicode_lower construct w event store tr :
  (process_message unicode_lower construct w event store tr).2.1 = inr tt.
Proof.
  destruct (WebhookEvent.message event) as [message|] eqn:Hm;
    [|unfold process_message; by rewrite Hm].
  destruct (Message.text message) as [[|c text]|] eqn:Ht;
    try (unfold process_message; by rewrite Hm, Ht).
  rewrite (process_message_unfold _ _ _ _ _ _ _ _ _ Hm Ht).
  by destruct (get_yoruba_agent construct store) as [[e|agent] store'].
Qed.

(** In this repository the agent is never at hand. *)
Lemma get_yoruba_agent_raises model_init :
  get_yoruba_agent (YorubaAgent_init model_init) None
  = (inl (AttributeError "Settings" "gemini_api_key"), None).
Proof. reflexivity. Qed.

(** C1. The guard of the task reads the text before it is stripped, so a
    text of one space is not taken for an empty one: the task goes on to
    fetch the agent, which raises in this repository, and the apology is
    delivered to the chat, in every world. A delivery is made where the
    claim has none. *)
Theorem whitespace_text_gets_an_apology unicode_lower model_init w :
  blank (u" ") = true
  /\ Py.truthy (u" ") = true
  /\ process_message unicode_lower (YorubaAgent_init model_init) w
       (sample_event (Some (u" "))) None []
     = (None,
        (inr tt,
         [PostMessages (MessageResponse.mk (u"C1") delivery_apology (Some (u"M1"))
                                           (Some (u"Markdown")) false)])).
Proof.
  split; [reflexivity|]. split; [reflexivity|].
  by rewrite (process_message_unfold unicode_lower (YorubaAgent_init model_init) w
                (sample_event (Some (u" "))) (sample_message (Some (u" ")))
                32%N [] None [] eq_refl eq_refl).
Qed.

(** C4. For every message event with a non-empty text, whatever becomes of
    the construction of the agent. When the agent cannot be had (the only
    case in this repository), no reply is delivered and the apology is sent
    once. Otherwise the typing indicator and the reply text come first,
    nothing being delivered yet, then the reply is delivered; if that
    delivery fails, the apology is sent exactly once, to the same chat and in
    reply to the same message, and if it succeeds nothing follows. In every
    case the task returns normally, whatever becomes of the apology, and
    nothing comes after it. *)
Theorem fallback_delivery_once unicode_lower construct w event message c text store tr :
  WebhookEvent.message event = Some message ->
  Message.text message = Some (c :: text) ->
  let chat_id := Message.chat_id message in
  let target := Some (Message.message_id message) in
  let fallback :=
    MessageResponse.mk chat_id delivery_apology target (Some (u"Markdown")) false in
  let run := process_message unicode_lower construct w event store tr in
  match (get_yoruba_agent construct store).1 with
  | inl _ => run.2 = (inr tt, tr ++ [PostMessages fallback])
  | inr _ =>
      exists reply effects,
        let main := MessageResponse.mk chat_id reply target (Some (u"Markdown")) false in
        let tr_main := tr ++ PostActions chat_id :: effects in
        no_delivery effects
        /\ run.2 = (inr tt,
                    tr_main ++ PostMessages main
                               :: match messages_reply w tr_main main with
                                  | inl _ => [PostMessages fallback]
                                  | inr _ => []
                                  end)
  end.
Proof.
  intros Hm Ht. cbv zeta.
  rewrite (process_message_unfold unicode_lower construct w event message c text store tr
             Hm Ht).
  destruct (get_yoruba_agent construct store) as [[e|agent] store']; cbn [fst snd];
    [reflexivity|].
  destruct (reply_with_agent_sends unicode_lower w message (c :: text) tr)
    as (middle & Hsends & Hmiddle).
  exists (reply_with_agent unicode_lower w message (c :: text) tr).1, middle.
  cbv zeta. rewrite Hsends. split; [|reflexivity].
  destruct Hmiddle as [->|[prompt ->]];
    [apply no_delivery_nil | apply no_delivery_agent_run].
Qed.

Lemma fallback_delivery_witness :
  (process_message no_case_mapping (YorubaAgent_init None) world_delivery_down
     (sample_event (Some (u"hi"))) None []).2
  = (inr tt,
     [PostMessages (MessageResponse.mk (u"C1") delivery_apology (Some (u"M1"))
                                       (Some (u"Markdown")) false)]).
Proof.
  exact (fallback_delivery_once no_case_mapping (YorubaAgent_init None)
           world_delivery_down (sample_event (Some (u"hi")))
           (sample_message (Some (u"hi"))) 104%N [105%N] None [] eq_refl eq_refl).
Defined.

(** X1. In this repository a message with a non-empty text, whatever it
    says, is answered with the apology alone: fetching the agent raises
    before the typing indicator, so no typing indicator is sent, the AI
    provider is not called, and the one delivery is the apology, to the chat
    and in reply to the message; the task returns normally whether that
    delivery goes through or not, and the agent global stays unset. *)
Theorem every_text_gets_only_the_apology unicode_lower model_init w event message c text tr :
  WebhookEvent.message event = Some message ->
  Message.text message = Some (c :: text) ->
  process_message unicode_lower (YorubaAgent_init model_init) w event None tr
  = (None,
     (inr tt,
      tr ++ [PostMessages
               (MessageResponse.mk (Message.chat_id message) delivery_apology
                                   (Some (Message.message_id message))
                                   (Some (u"Markdown")) false)])).
Proof.
  intros Hm Ht.
  by rewrite (process_message_unfold unicode_lower (YorubaAgent_init model_init) w event
                message c text None tr Hm Ht).
Qed.

Lemma every_text_witness :
  process_message no_case_mapping (YorubaAgent_init None) world_up
    (sample_event (Some (u"Who was Oduduwa?"))) None []
  = (None,
     (inr tt,
      [PostMessages (MessageResponse.mk (u"C1") delivery_apology (Some (u"M1"))
                                        (Some (u"Markdown")) false)])).
Proof.
  exact (every_text_gets_only_the_apology no_case_mapping None world_up
           (sample_event (Some (u"Who was Oduduwa?")))
           (sample_message (Some (u"Who was Oduduwa?")))
           87%N (u"ho was Oduduwa?") [] eq_refl eq_refl).
Defined.

(** X2. What [process_message] does with a message that has a non-empty
    text, in full. It fetches the agent first. If that raises, the apology is
    the only thing sent. If an agent is returned, the typing indicator is
    sent, a greeting or a request for help gets the fixed text of its kind
    without any provider call, any other text is put to the provider once,
    stripped and behind the attribution prefix, and answered with the text
    of the provider's result or with the apology of the agent; the reply is
    delivered to the chat, in reply to the message, and only a failed
    delivery is followed by the fallback apology. The task returns normally
    on every path and leaves the agent global as the fetch left it. *)
Theorem process_message_behaviour unicode_lower construct w event message c text store tr :
  WebhookEvent.message event = Some message ->
  Message.text message = Some (c :: text) ->
  let chat_id := Message.chat_id message in
  let target := Some (Message.message_id message) in
  let fallback :=
    MessageResponse.mk chat_id delivery_apology target (Some (u"Markdown")) false in
  let typing := PostActions chat_id in
  let prompt := u"Question from " ++ display_name (Message.from_user message)
                ++ u": " ++ Py.strip (c :: text) in
  process_message unicode_lower construct w event store tr
  = match get_yoruba_agent construct store with
    | (inl _, store') => (store', (inr tt, tr ++ [PostMessages fallback]))
    | (inr _, store') =>
        let '(reply, sent) :=
          match classify unicode_lower (Py.strip (c :: text)) with
          | Greeting => (greeting_text, [typing])
          | Help => (help_text, [typing])
          | General =>
              (match agent_reply w (tr ++ [typing]) prompt with
               | inr result => response_text_of result
               | inl _ => agent_apology
               end,
               [typing; AgentRun prompt])
          end in
        let main := MessageResponse.mk chat_id reply target (Some (u"Markdown")) false in
        (store',
         (inr tt,
          (tr ++ sent) ++ PostMessages main
                          :: match messages_reply w (tr ++ sent) main with
                             | inl _ => [PostMessages fallback]
                             | inr _ => []
                             end))
    end.
Proof.
  intros Hm Ht. cbv zeta.
  rewrite (process_message_unfold unicode_lower construct w event message c text store tr
             Hm Ht).
  destruct (get_yoruba_agent construct store) as [[e|agent] store']; [reflexivity|].
  unfold reply_with_agent.
  by destruct (classify unicode_lower (Py.strip (c :: text))).
Qed.

Lemma process_message_behaviour_witness :
  process_message no_case_mapping (YorubaAgent_init None) world_up
    (sample_event (Some (u" /HELP "))) None []
  = (None,
     (inr tt,
      [PostMessages (MessageResponse.mk (u"C1") delivery_apology (Some (u"M1"))
                                        (Some (u"Markdown")) false)])).
Proof.
  exact (process_message_behaviour no_case_mapping (YorubaAgent_init None) world_up
           (sample_event (Some (u" /HELP "))) (sample_message (Some (u" /HELP ")))
           32%N (u"/HELP ") None [] eq_refl eq_refl).
Defined.

(** X17. For every event whose message is missing or whose text is null or
    empty, the task is a no-op: it returns at once, without fetching the
    agent, typing indicator, provider call or delivery. *)
Theorem no_text_no_processing unicode_lower construct w event store tr :
  event_text event = None \/ event_text event = Some [] ->
  process_message unicode_lower construct w event store tr = (store, (inr tt, tr)).
Proof.
  unfold event_text, process_message.
  destruct (WebhookEvent.message event) as [message|]; cbn [mbind option_bind];
    [|reflexivity].
  destruct (Message.text message) as [[|c text]|]; [reflexivity| |reflexivity].
  intros [H|H]; discriminate.
Qed.

Lemma no_text_no_processing_witness :
  process_message no_case_mapping (YorubaAgent_init None) world_up
    (sample_event (Some (u""))) None [] = (None, (inr tt, []))
  /\ process_message no_case_mapping (YorubaAgent_init None) world_up
       (sample_event None) None [] = (None, (inr tt, [])).
Proof.
  split.
  - apply (no_text_no_processing no_case_mapping (YorubaAgent_init None) world_up
             (sample_event (Some (u""))) None []).
    right. reflexivity.
  - apply (no_text_no_processing no_case_mapping (YorubaAgent_init None) world_up
             (sample_event None) None []).
    left. reflexivity.
Defined.

(** X4. Whether the typing indicator goes through or fails changes neither
    the result nor the trace of the task, nor the agent global. *)
Theorem typing_outcome_is_irrelevant unicode_lower construct w f event store tr :
  process_message unicode_lower construct (with_actions_reply f w) event store tr
  = process_message unicode_lower construct w event store tr.
Proof.
  destruct (WebhookEvent.message event) as [message|] eqn:Hm;
    [|unfold process_message; by rewrite Hm].
  destruct (Message.text message) as [[|c text]|] eqn:Ht;
    try (unfold process_message; by rewrite Hm, Ht).
  by rewrite !(process_message_unfold _ _ _ _ _ _ _ _ _ Hm Ht).
Qed.

Lemma footprint_nil (message : Message.t) :
  length (typings []) <= 1
  /\ length (prompts []) <= 1
  /\ length (delivered []) <= 2
  /\ forall message' : Message.t,
       Some message = Some message' ->
       (forall chat_id, chat_id ∈ typings [] -> chat_id = Message.chat_id message')
       /\ (forall m, m ∈ delivered [] ->
             MessageResponse.chat_id m = Message.chat_id message'
             /\ MessageResponse.reply_to_message_id m = Some (Message.message_id message')
             /\ MessageResponse.parse_mode m = Some (u"Markdown")
             /\ MessageResponse.disable_web_page_preview m = false).
Proof.
  cbn. split; [lia|]. split; [lia|]. split; [lia|].
  intros message' _. split; intros ? H; by apply elem_of_nil in H.
Qed.

(** X5. Whatever becomes of the agent fetch, the task never raises and only
    appends to the trace: at most one typing indicator, at most one provider
    call and at most two deliveries, all of them to the chat of the incoming
    message, in reply to that message, in Markdown with link previews left
    on. *)
Theorem process_message_footprint unicode_lower construct w event store tr :
  exists effects,
    (process_message unicode_lower construct w event store tr).2 = (inr tt, tr ++ effects)
    /\ length (typings effects) <= 1
    /\ length (prompts effects) <= 1
    /\ length (delivered effects) <= 2
    /\ forall message,
         WebhookEvent.message event = Some message ->
         (forall chat_id, chat_id ∈ typings effects -> chat_id = Message.chat_id message)
         /\ (forall m, m ∈ delivered effects ->
               MessageResponse.chat_id m = Message.chat_id message
               /\ MessageResponse.reply_to_message_id m = Some (Message.message_id message)
               /\ MessageResponse.parse_mode m = Some (u"Markdown")
               /\ MessageResponse.disable_web_page_preview m = false).
Proof.
  destruct (WebhookEvent.message event) as [message|] eqn:Hm.
  2:{ exists []. unfold process_message. rewrite Hm, app_nil_r.
      split; [reflexivity|]. cbn. split; [lia|]. split; [lia|]. split; [lia|].
      intros; discriminate. }
  destruct (Message.text message) as [[|c text]|] eqn:Ht.
  1,3: exists []; unfold process_message; rewrite Hm, Ht, app_nil_r;
       (split; [reflexivity | apply footprint_nil]).
  rewrite (process_message_unfold unicode_lower construct w event message c text store tr
             Hm Ht).
  destruct (get_yoruba_agent construct store) as [[e|agent] store']; cbn [snd].
  - eexists. split; [reflexivity|]. cbn.
    split; [lia|]. split; [lia|]. split; [lia|].
    intros ? [= <-]. split; intros ?;
      rewrite ?elem_of_cons, ?elem_of_nil; intros H;
      repeat match goal with
             | H : _ \/ _ |- _ => destruct H
             | H : False |- _ => destruct H
             end;
      subst; repeat split.
  - destruct (reply_with_agent_sends unicode_lower w message (c :: text) tr)
      as (middle & Hsends & Hmiddle).
    cbv zeta. rewrite Hsends.
    eexists. split; [by rewrite <- app_assoc|].
    destruct (messages_reply w _ _); destruct Hmiddle as [->|[prompt ->]]; cbn;
      (split; [lia|]); (split; [lia|]); (split; [lia|]);
      intros ? [= <-]; (split; intros ?);
      rewrite ?elem_of_cons, ?elem_of_nil; intros H;
      repeat match goal with
             | H : _ \/ _ |- _ => destruct H
             | H : False |- _ => destruct H
             end;
      subst; repeat split.
Qed.

(** X6. Whitespace around a non-empty text changes nothing of what the task
    does. *)
Theorem surrounding_whitespace_is_ignored unicode_lower construct w event_id event_type
    message_id user chat_id message_type reply_to pre c text post store tr :
  blank pre = true -> blank post = true ->
  let event_with t :=
    WebhookEvent.mk event_id event_type
      (Some (Message.mk message_id user chat_id (Some t) message_type reply_to)) in
  process_message unicode_lower construct w (event_with (pre ++ (c :: text) ++ post)) store tr
  = process_message unicode_lower construct w (event_with (c :: text)) store tr.
Proof.
  intros Hpre Hpost event_with. unfold event_with, process_message.
  cbn [WebhookEvent.message Message.text Message.from_user Message.chat_id
       Message.message_id].
  replace (Py.truthy (pre ++ (c :: text) ++ post)) with true
    by (by destruct pre).
  cbn [Py.truthy negb]. by rewrite strip_padding.
Qed.

Lemma surrounding_whitespace_witness :
  process_message no_case_mapping (YorubaAgent_init None) world_up
    (sample_event (Some (u"  hi" ++ nl))) None []
  = process_message no_case_mapping (YorubaAgent_init None) world_up
      (sample_event (Some (u"hi"))) None [].
Proof.
  apply (surrounding_whitespace_is_ignored no_case_mapping (YorubaAgent_init None)
           world_up (u"E1") MESSAGE (u"M1") sample_user (u"C1") TEXT None (u"  ")
           104%N [105%N] nl None []);
    reflexivity.
Defined.
(* ===================================================================== *)
(** * The router                                                          *)
(* ===================================================================== *)

(** C10. A MESSAGE event without a message is acknowledged with success and
    the text "Event type not handled", and no task is scheduled. *)
Theorem message_event_without_message event request :
  WebhookEvent.event_type event = MESSAGE ->
  WebhookEvent.message event = None ->
  handle_telex_webhook event request
  = (Ok200 (ActionResponse.mk true (Some (u"Event type not handled"))), []).
Proof.
  intros Hty Hmsg. unfold handle_telex_webhook. rewrite Hty, Hmsg.
  reflexivity.
Qed.

Lemma message_event_without_message_witness :
  handle_telex_webhook (WebhookEvent.mk (u"E1") MESSAGE None) sample_request
  = (Ok200 (ActionResponse.mk true (Some (u"Event type not handled"))), []).
Proof.
  apply (message_event_without_message (WebhookEvent.mk (u"E1") MESSAGE None)
           sample_request); reflexivity.
Defined.

(** The handler always answers 200 with [success = True]; it schedules the
    task for MESSAGE events that carry a message and nothing otherwise. *)
Lemma handle_telex_webhook_acknowledges event request :
  exists r,
    (handle_telex_webhook event request).1 = Ok200 r
    /\ ActionResponse.success r = true
    /\ (handle_telex_webhook event request).2
       = match WebhookEvent.event_type event, WebhookEvent.message event with
         | MESSAGE, Some _ => [ProcessMessage event]
         | _, _ => []
         end.
Proof.
  unfold handle_telex_webhook.
  destruct (WebhookEvent.event_type event), (WebhookEvent.message event);
    eexists; (split; [reflexivity|]); split; reflexivity.
Qed.

(** C7 (amended). The router makes no signature check: it reads neither
    the settings nor the request, so two requests that carry the same
    event, whatever their signatures, valid or not, get the same answer and
    the same scheduled task, and the answer is a success. *)
Theorem router_ignores_signature event request request' :
  handle_telex_webhook event request = handle_telex_webhook event request'
  /\ exists r,
       (handle_telex_webhook event request).1 = Ok200 r
       /\ ActionResponse.success r = true
       /\ (handle_telex_webhook event request).2
          = match WebhookEvent.event_type event, WebhookEvent.message event with
            | MESSAGE, Some _ => [ProcessMessage event]
            | _, _ => []
            end.
Proof.
  split; [reflexivity|]. apply handle_telex_webhook_acknowledges.
Qed.

(** C7, as stated, fails: with the secret "s3cret" configured and a forged
    signature that [validate_webhook_signature] rejects, a MESSAGE event is
    acknowledged with success and its task is scheduled. *)
Lemma invalid_signature_is_routed :
  let settings := settings_with_secret (u"s3cret") in
  Py.truthy (Settings.telex_webhook_secret settings) = true
  /\ validate_webhook_signature settings (Request.body forged_request)
       (Request.signature forged_request) = false
  /\ handle_telex_webhook (sample_event (Some (u"hi"))) forged_request
     = (Ok200 (ActionResponse.mk true (Some (u"Message received and being processed"))),
        [ProcessMessage (sample_event (Some (u"hi")))]).
Proof. vm_compute. repeat split. Qed.

(** The tasks of one request: at most one, and it never raises. *)
Lemma run_background_handler unicode_lower construct w event request store tr :
  run_background unicode_lower construct w (handle_telex_webhook event request).2 store tr
  = match WebhookEvent.event_type event, WebhookEvent.message event with
    | MESSAGE, Some _ =>
        ((process_message unicode_lower construct w event store tr).1,
         (inr tt, (process_message unicode_lower construct w event store tr).2.2))
    | _, _ => (store, (inr tt, tr))
    end.
Proof.
  destruct (handle_telex_webhook_acknowledges event request) as (r & _ & _ & ->).
  destruct (WebhookEvent.event_type event), (WebhookEvent.message event) as [message|];
    try reflexivity.
  cbn [run_background run_task].
  pose proof (process_message_returns unicode_lower construct w event store tr) as Hr.
  destruct (process_message unicode_lower construct w event store tr) as [store' [r' tr']].
  cbn [fst snd] in *. by rewrite Hr.
Qed.

(** C9. A MESSAGE event with text "hi" in chat "C1" from user "U1", whatever
    its other fields, the request and the world: the handler answers with
    success and schedules the task, and the text is a greeting; but the task
    begins by fetching the agent, which raises because [Settings] has no
    field [gemini_api_key], so neither the typing indicator nor the greeting
    is sent: the one thing "C1" receives is the apology, in reply to the
    message. *)
Theorem greeting_gets_only_the_apology unicode_lower model_init w event_id message_id
    username first_name last_name language_code message_type reply_to request :
  let user := User.mk (u"U1") username first_name last_name language_code in
  let message := Message.mk message_id user (u"C1") (Some (u"hi")) message_type reply_to in
  let event := WebhookEvent.mk event_id MESSAGE (Some message) in
  handle_telex_webhook event request
  = (Ok200 (ActionResponse.mk true (Some (u"Message received and being processed"))),
     [ProcessMessage event])
  /\ classify unicode_lower (Py.strip (u"hi")) = Greeting
  /\ get_yoruba_agent (YorubaAgent_init model_init) None
     = (inl (AttributeError "Settings" "gemini_api_key"), None)
  /\ run_background unicode_lower (YorubaAgent_init model_init) w
       (handle_telex_webhook event request).2 None []
     = (None,
        (inr tt,
         [PostMessages (MessageResponse.mk (u"C1") delivery_apology (Some message_id)
                                           (Some (u"Markdown")) false)])).
Proof.
  intros user message event.
  split; [reflexivity|]. split; [vm_compute; reflexivity|]. split; [reflexivity|].
  rewrite run_background_handler. cbn [WebhookEvent.event_type WebhookEvent.message event].
  by rewrite (process_message_unfold unicode_lower (YorubaAgent_init model_init) w event
                message 104%N [105%N] None [] eq_refl eq_refl).
Qed.

(** A question in place of the greeting, with both providers up: again the
    apology is all that is sent. *)
Example scenario_question :
  run_background no_case_mapping (YorubaAgent_init None) world_up
    (handle_telex_webhook (sample_event (Some (u"Who was Oduduwa?"))) sample_request).2
    None []
  = (None,
     (inr tt,
      [PostMessages (MessageResponse.mk (u"C1") delivery_apology (Some (u"M1"))
                                        (Some (u"Markdown")) false)])).
Proof. vm_compute. reflexivity. Qed.

(** X7. Handler and background tasks together, whatever becomes of the
    agent fetch: the run never raises, and it leaves a trace exactly when
    the event is a MESSAGE that carries a non-empty text; receipts, joins,
    leaves and messages without text cause no call at all. *)
Theorem effects_iff_actionable unicode_lower construct w event request store :
  let run :=
    run_background unicode_lower construct w (handle_telex_webhook event request).2
                   store [] in
  run.2.1 = inr tt /\ (run.2.2 = [] <-> actionable event = false).
Proof.
  cbv zeta. rewrite run_background_handler. unfold actionable, event_text.
  destruct (WebhookEvent.event_type event) eqn:Hty;
    destruct (WebhookEvent.message event) as [message|] eqn:Hm;
    cbn [bool_decide decide_rel andb snd fst mbind option_bind];
    try (split; [reflexivity | split; reflexivity]).
  change (bool_decide (MESSAGE = MESSAGE)) with true. cbn [andb].
  split; [reflexivity|].
  destruct (Message.text message) as [[|c text]|] eqn:Ht.
  1,3: unfold process_message; rewrite Hm, Ht; split; reflexivity.
  rewrite (process_message_unfold unicode_lower construct w event message c text store []
             Hm Ht).
  destruct (get_yoruba_agent construct store) as [[e|agent] store']; cbn [snd].
  - split; discriminate.
  - destruct (reply_with_agent_sends unicode_lower w message (c :: text) [])
      as (middle & Hsends & _).
    cbv zeta. rewrite Hsends. split; discriminate.
Qed.

(* ===================================================================== *)
(** * The event types                                                     *)
(* ===================================================================== *)

Lemma EventType_of_value_Some value e :
  EventType_of_value value = Some e -> value = EventType_value e.
Proof.
  unfold EventType_of_value. intros H.
  apply List.find_some in H as [_ H]. by apply bool_decide_eq_true in H.
Qed.

Lemma EventType_of_value_value e : EventType_of_value (EventType_value e) = Some e.
Proof. by destruct e. Qed.

Lemma EventType_of_value_None value :
  EventType_of_value value = None <-> value ∉ map EventType_value EventType_members.
Proof.
  split.
  - intros Hnone Hin. apply list_elem_of_fmap in Hin as (e & -> & _).
    by rewrite EventType_of_value_value in Hnone.
  - intros Hnot. destruct (EventType_of_value value) as [e|] eqn:E; [|done].
    destruct Hnot. apply EventType_of_value_Some in E as ->.
    apply (list_elem_of_fmap_2 EventType_value).
    destruct e; apply (bool_decide_eq_true_1 _); reflexivity.
Qed.

(** C2. The field [event_type] of [WebhookEvent] is typed by the closed
    enumeration [EventType]: a value outside its five values, such as
    "reaction.added", is the value of no member, so [EventType(value)]
    raises and no event the handler is given carries it. The branch of the
    handler that acknowledges an unhandled kind with success is reached by
    a MESSAGE without message and by nothing else. *)
Theorem unknown_event_type_has_no_member :
  EventType_of_value (u"reaction.added") = None
  /\ (forall value,
        EventType_of_value value = None
        <-> value ∉ map EventType_value EventType_members)
  /\ (forall event : WebhookEvent.t,
        EventType_value (WebhookEvent.event_type event) ≠ u"reaction.added")
  /\ (forall event request,
        (handle_telex_webhook event request).1
        = Ok200 (ActionResponse.mk true (Some (u"Event type not handled")))
        <-> WebhookEvent.event_type event = MESSAGE /\ WebhookEvent.message event = None).
Proof.
  split; [reflexivity|]. split; [exact EventType_of_value_None|]. split.
  - intros event. by destruct (WebhookEvent.event_type event).
  - intros [event_id event_type message] request.
    cbn [WebhookEvent.event_type WebhookEvent.message].
    destruct event_type, message as [m|]; vm_compute; split;
      try (intros H; discriminate H); try (intros [H1 H2]; discriminate);
      try (intros _; split; reflexivity); try reflexivity.
Qed.

(** X9. [EventType(value)] inverts [.value]: the five values are pairwise
    distinct, every member is found by its value, and a value that is found
    is the value of the member returned. *)
Theorem event_type_round_trip :
  (forall e, EventType_of_value (EventType_value e) = Some e)
  /\ (forall value e, EventType_of_value value = Some e -> value = EventType_value e)
  /\ NoDup (map EventType_value EventType_members)
  /\ (forall e : EventType, e ∈ EventType_members).
Proof.
  split; [exact EventType_of_value_value|]. split; [exact EventType_of_value_Some|].
  split.
  - apply (bool_decide_eq_true_1 _). vm_compute. reflexivity.
  - intros e. destruct e; apply (bool_decide_eq_true_1 _); reflexivity.
Qed.

(* ===================================================================== *)
(** * Signature validation                                                *)
(* ===================================================================== *)

Lemma hex_octet_isascii b :
  Py.isascii [Hashlib.hexdigit (Byte.to_N b / 16); Hashlib.hexdigit (Byte.to_N b mod 16)]
  = true.
Proof. destruct b; reflexivity. Qed.

(** A hexadecimal digest is ASCII, so [compare_digest] accepts it. *)
Lemma hex_isascii bs : Py.isascii (Hashlib.hex bs) = true.
Proof.
  induction bs as [|b bs IH]; [done|].
  unfold Hashlib.hex in *. cbn [map concat]. unfold Py.isascii in *.
  rewrite forallb_app, IH, andb_true_r. apply hex_octet_isascii.
Qed.

(** With a secret, the result is the comparison with the expected
    signature, and [False] when a step of the [try] block raises. *)
Lemma validate_configured settings payload signature :
  Settings.telex_webhook_secret settings ≠ [] ->
  validate_webhook_signature settings payload signature
  = match expected_signature settings payload with
    | Some expected => Py.isascii signature && bool_decide (signature = expected)
    | None => false
    end.
Proof.
  intros Hs. unfold validate_webhook_signature, expected_signature.
  destruct (Settings.telex_webhook_secret settings) as [|c s] eqn:E; [done|].
  cbn [Py.truthy negb].
  destruct (Py.encode (c :: s)) as [key|]; [|done]. cbn [mbind option_bind].
  destruct (Py.encode payload) as [msg|]; [|done]. cbn [mbind option_bind].
  unfold Hashlib.compare_digest. rewrite hex_isascii, andb_true_r.
  by destruct (Py.isascii signature).
Qed.

(** X18. Without a secret every signature is accepted. With a secret, a
    signature is accepted exactly when it is the hexadecimal HMAC-SHA256 of
    the payload under the secret; so, once a signature is accepted for a
    payload, every other signature is refused for it; when the payload or
    the secret cannot be encoded, or the signature is not ASCII (the
    internal errors), the answer is [False]. The function is total: it
    never raises. *)
Theorem signature_accepted_iff_digest settings payload signature :
  let secret := Settings.telex_webhook_secret settings in
  (secret = [] -> validate_webhook_signature settings payload signature = true) /\
  (secret ≠ [] ->
     (validate_webhook_signature settings payload signature = true
      <-> expected_signature settings payload = Some signature) /\
     (forall signature',
        validate_webhook_signature settings payload signature = true ->
        signature' ≠ signature ->
        validate_webhook_signature settings payload signature' = false) /\
     (expected_signature settings payload = None ->
      validate_webhook_signature settings payload signature = false) /\
     (Py.isascii signature = false ->
      validate_webhook_signature settings payload signature = false)).
Proof.
  intros secret. split.
  - intros H. unfold validate_webhook_signature. fold secret. by rewrite H.
  - intros Hs.
    assert (Hiff : forall p s, validate_webhook_signature settings p s = true
                          <-> expected_signature settings p = Some s).
    { intros p s. rewrite validate_configured by done.
      destruct (expected_signature settings p) as [x|] eqn:E.
      - rewrite andb_true_iff, bool_decide_eq_true. split.
        + by intros [_ ->].
        + intros [= ->]. split; [|reflexivity].
          unfold expected_signature in E.
          unfold mbind, option_bind in E.
          destruct (Py.encode _); [|done].
          destruct (Py.encode p); [|done].
          injection E as <-. apply hex_isascii.
      - split; discriminate. }
    split; [apply Hiff|]. split; [|split].
    + intros s' Hv Hne. apply not_true_is_false. rewrite Hiff.
      apply Hiff in Hv. rewrite Hv. congruence.
    + intros Hn. rewrite validate_configured by done. by rewrite Hn.
    + intros Ha. rewrite validate_configured by done.
      destruct (expected_signature settings payload); [|done]. by rewrite Ha.
Qed.

(** The vector of RFC 4231, then one character of the signature changed,
    then no secret at all. *)
Lemma signature_accepted_witness :
  validate_webhook_signature (settings_with_secret (u"Jefe"))
    (u"what do ya want for nothing?")
    (u"5bdcc146bf60754e6a042426089575c75a003f089d2739839dec58b964ec3843") = true
  /\ validate_webhook_signature (settings_with_secret (u"Jefe"))
       (u"what do ya want for nothing?")
       (u"5bdcc146bf60754e6a042426089575c75a003f089d2739839dec58b964ec3842") = false
  /\ validate_webhook_signature (settings_with_secret (u""))
       (u"what do ya want for nothing?") (u"anything") = true.
Proof.
  pose proof (signature_accepted_iff_digest (settings_with_secret (u"Jefe"))
                (u"what do ya want for nothing?")
                (u"5bdcc146bf60754e6a042426089575c75a003f089d2739839dec58b964ec3843"))
    as [_ H].
  destruct H as (Hiff & Hsig & _); [vm_compute; discriminate|].
  assert (Hv : validate_webhook_signature (settings_with_secret (u"Jefe"))
                 (u"what do ya want for nothing?")
                 (u"5bdcc146bf60754e6a042426089575c75a003f089d2739839dec58b964ec3843")
               = true).
  { apply Hiff. vm_compute. reflexivity. }
  split; [exact Hv|]. split.
  - apply Hsig; [exact Hv|]. vm_compute. discriminate.
  - exact (proj1 (signature_accepted_iff_digest (settings_with_secret (u""))
                    (u"what do ya want for nothing?") (u"anything")) eq_refl).
Defined.

(* ===================================================================== *)
(** * The user context                                                    *)
(* ===================================================================== *)

(** X8. The user context of a general question has exactly the keys name,
    user_id and language; the name is the display name and is never empty;
    user_id is the id of the sender. *)
Theorem user_context_shape user :
  dom (user_context_of user) = {[ u"name"; u"user_id"; u"language" ]}
  /\ user_context_of user !! u"name" = Some (PyStr (display_name user))
  /\ display_name user ≠ []
  /\ user_context_of user !! u"user_id" = Some (PyStr (User.id user))
  /\ user_context_of user !! u"language" = Some (of_optional (User.language_code user)).
Proof.
  split; [|split; [|split; [|split]]].
  - unfold user_context_of. rewrite !dom_insert_L, dom_empty_L. set_solver.
  - apply user_context_name.
  - unfold display_name.
    destruct (User.first_name user) as [[|? ?]|];
      destruct (User.username user) as [[|? ?]|]; discriminate.
  - unfold user_context_of.
    rewrite lookup_insert_ne by (vm_compute; discriminate).
    by rewrite lookup_insert_eq.
  - unfold user_context_of. by rewrite lookup_insert_eq.
Qed.

(* ===================================================================== *)
(** * The shape of an accepted signature                                  *)
(* ===================================================================== *)

Lemma round_length st kw : length (Hashlib.round st kw) = length st.
Proof.
  unfold Hashlib.round.
  do 9 (destruct st as [|? st]; [reflexivity|]). reflexivity.
Qed.

Lemma fold_round_length kws st :
  length (fold_left Hashlib.round kws st) = length st.
Proof.
  revert st. induction kws as [|kw kws IH]; intros st; [reflexivity|].
  cbn [fold_left]. by rewrite IH, round_length.
Qed.

Lemma compress_length st block : length (Hashlib.compress st block) = length st.
Proof.
  unfold Hashlib.compress. rewrite length_zip_with, fold_round_length. lia.
Qed.

Lemma fold_compress_length bs st :
  length (fold_left Hashlib.compress bs st) = length st.
Proof.
  revert st. induction bs as [|b bs IH]; intros st; [reflexivity|].
  cbn [fold_left]. by rewrite IH, compress_length.
Qed.

Lemma concat_be_bytes_length ws :
  length (concat (map (Hashlib.be_bytes 4) ws)) = 4 * length ws.
Proof.
  induction ws as [|x ws IH]; [reflexivity|].
  cbn [map concat]. rewrite length_app, IH. cbn. lia.
Qed.

(** A SHA-256 digest has 32 octets, whatever the message. *)
Lemma sha256_octets_length msg : length (Hashlib.sha256_octets msg) = 32.
Proof.
  unfold Hashlib.sha256_octets. cbv zeta.
  rewrite concat_be_bytes_length, fold_compress_length. reflexivity.
Qed.

Lemma hmac_sha256_length key msg : length (Hashlib.hmac_sha256 key msg) = 32.
Proof.
  unfold Hashlib.hmac_sha256, Hashlib.to_bytes, Hashlib.hmac_octets. cbv zeta.
  by rewrite length_map, sha256_octets_length.
Qed.

Lemma hex_length bs : length (Hashlib.hex bs) = 2 * length bs.
Proof.
  induction bs as [|b bs IH]; [reflexivity|].
  unfold Hashlib.hex in *. cbn [map concat]. rewrite length_app, IH. cbn. lia.
Qed.

Lemma hex_octet_digits b :
  Forall (fun c => c ∈ hex_digits)
         [Hashlib.hexdigit (Byte.to_N b / 16); Hashlib.hexdigit (Byte.to_N b mod 16)].
Proof.
  apply Forall_forall. intros c Hc.
  apply (bool_decide_eq_true_1 _).
  revert c Hc. apply Forall_forall.
  apply (bool_decide_eq_true_1 _). destruct b; vm_compute; reflexivity.
Qed.

Lemma hex_digits_only bs : Forall (fun c => c ∈ hex_digits) (Hashlib.hex bs).
Proof.
  induction bs as [|b bs IH]; [constructor|].
  unfold Hashlib.hex in *. cbn [map concat].
  apply Forall_app. split; [apply hex_octet_digits | exact IH].
Qed.

(** X10. With a secret configured, every signature that is accepted is made
    of 64 lower-case hexadecimal digits; an upper-case digest or one with a
    prefix is refused. *)
Theorem accepted_signature_shape settings payload signature :
  Settings.telex_webhook_secret settings ≠ [] ->
  validate_webhook_signature settings payload signature = true ->
  length signature = 64 /\ Forall (fun c => c ∈ hex_digits) signature.
Proof.
  intros Hs Hv. rewrite validate_configured in Hv by done.
  unfold expected_signature, mbind, option_bind in Hv.
  destruct (Py.encode (Settings.telex_webhook_secret settings)) as [key|]; [|done].
  destruct (Py.encode payload) as [msg|]; [|done].
  apply andb_true_iff in Hv as [_ Hv]. apply bool_decide_eq_true in Hv as ->.
  split; [|apply hex_digits_only].
  by rewrite hex_length, hmac_sha256_length.
Qed.

Lemma accepted_signature_shape_witness :
  length (u"5bdcc146bf60754e6a042426089575c75a003f089d2739839dec58b964ec3843") = 64
  /\ Forall (fun c => c ∈ hex_digits)
            (u"5bdcc146bf60754e6a042426089575c75a003f089d2739839dec58b964ec3843").
Proof.
  apply (accepted_signature_shape (settings_with_secret (u"Jefe"))
           (u"what do ya want for nothing?")).
  - vm_compute. discriminate.
  - vm_compute. reflexivity.
Defined.

(* ===================================================================== *)
(** * The relevance check                                                 *)
(* ===================================================================== *)








(* ===================================================================== *)
(** * Broadcast                                                           *)
(* ===================================================================== *)

Lemma broadcast_loop_spec exception_str w text chat_ids results errors tr :
  broadcast_loop exception_str w text chat_ids results errors tr
  = (inr (results ++ successes (send_outcomes w text chat_ids tr),
          errors ++ failures exception_str (send_outcomes w text chat_ids tr)),
     tr ++ broadcast_posts text chat_ids).
Proof.
  revert results errors tr.
  induction chat_ids as [|chat_id rest IH]; intros results errors tr.
  - cbn. by rewrite !app_nil_r.
  - cbn [broadcast_loop send_outcomes broadcast_posts map].
    unfold mbind at 1, IO_bind at 1, try_except at 1.
    unfold mbind at 1, IO_bind at 1, send_text_message, send_message, call.
    cbv zeta.
    destruct (messages_reply w tr (MessageResponse.new chat_id text None)) as [e|r];
      cbn [mret IO_ret fst snd]; rewrite IH;
      unfold successes, failures; cbn [omap fst snd];
      by rewrite <- !app_assoc.
Qed.

Lemma outcomes_split exception_str outcomes :
  length (successes outcomes) + length (failures exception_str outcomes)
  = length outcomes.
Proof.
  induction outcomes as [|[c [e|r]] os IH]; cbn; [done| |];
    unfold successes, failures in *; cbn in *; lia.
Qed.

Lemma send_outcomes_length w text chat_ids tr :
  length (send_outcomes w text chat_ids tr) = length chat_ids.
Proof.
  revert tr. induction chat_ids as [|c rest IH]; intros tr; [done|].
  cbn. by rewrite IH.
Qed.

Lemma send_outcomes_chats w text chat_ids tr :
  map fst (send_outcomes w text chat_ids tr) = chat_ids.
Proof.
  revert tr. induction chat_ids as [|c rest IH]; intros tr; [done|].
  cbn. by rewrite IH.
Qed.

Lemma outcomes_partition exception_str outcomes :
  map fst (successes outcomes) ++ map fst (failures exception_str outcomes)
  ≡ₚ map fst outcomes.
Proof.
  induction outcomes as [|[c [e|r]] os IH]; [done| |];
    unfold successes, failures in *; cbn in *.
  - rewrite <- Permutation_middle. by constructor.
  - by constructor.
Qed.

(** X12. A broadcast never raises and posts the text once to every chat of
    the list, in order, whatever fails on the way; the sends that went
    through and those that failed are reported with their chats, they add
    up to the total, the flag [success] says that none failed, and the
    summary counts both. *)
Theorem broadcast_reaches_every_chat exception_str w chat_ids text tr :
  exists response,
    broadcast_message exception_str w chat_ids text tr
    = (inr response, tr ++ broadcast_posts text chat_ids)
    /\ Broadcast.successful response = successes (send_outcomes w text chat_ids tr)
    /\ Broadcast.failed response = failures exception_str (send_outcomes w text chat_ids tr)
    /\ length (Broadcast.successful response) + length (Broadcast.failed response)
       = length chat_ids
    /\ Broadcast.total response = length chat_ids
    /\ map fst (Broadcast.successful response) ++ map fst (Broadcast.failed response)
       ≡ₚ chat_ids
    /\ (Broadcast.success response = true <-> Broadcast.failed response = [])
    /\ Broadcast.message response
       = u"Broadcast completed: " ++ str_len (Broadcast.successful response)
         ++ u" successful, " ++ str_len (Broadcast.failed response) ++ u" failed".
Proof.
  unfold broadcast_message, mbind, IO_bind.
  rewrite broadcast_loop_spec. cbn [app fst snd mret IO_ret].
  eexists. split; [reflexivity|].
  cbn [Broadcast.successful Broadcast.failed Broadcast.total Broadcast.success
       Broadcast.message].
  split; [reflexivity|]. split; [reflexivity|].
  split; [by rewrite outcomes_split, send_outcomes_length|].
  split; [reflexivity|].
  split; [by rewrite outcomes_partition, send_outcomes_chats|].
  split; [|reflexivity].
  rewrite bool_decide_eq_true. split.
  - by intros ?%nil_length_inv.
  - by intros ->.
Qed.

(* ===================================================================== *)
(** * Service singletons and the agent routes                             *)
(* ===================================================================== *)

Lemma ask_user_context_prompt request :
  enhanced_question (QuestionRequest.question request) (ask_user_context request)
  = ask_prompt request.
Proof.
  unfold ask_user_context, ask_prompt, enhanced_question, Py.or_else, Py.truthy_opt.
  destruct request as [q [[|c name]|] [[|c' uid]|]];
    cbn [QuestionRequest.user_name QuestionRequest.user_id QuestionRequest.question
         Py.truthy Py.or_str of_optional];
    try reflexivity.
  all: unfold dict_truthy; rewrite bool_decide_eq_false_2 by apply insert_non_empty;
    cbn [negb];
    rewrite lookup_insert_ne by (vm_compute; discriminate);
    rewrite lookup_insert_eq; reflexivity.
Qed.

(** X15. The user context that [ask_question] prepares, handed to
    [get_response] with the question: the provider is called once, with the
    question behind "Question from NAME: " when a user name is given,
    behind "Question from friend: " when only a user id is given, and as it
    is otherwise; the answer is the provider's text or, when the provider
    call raises, the apology. *)
Theorem ask_context_prompt w request tr :
  let prompt := ask_prompt request in
  get_response w (QuestionRequest.question request) (ask_user_context request) tr
  = (inr match agent_reply w tr prompt with
         | inr result => response_text_of result
         | inl _ => agent_apology
         end,
     tr ++ [AgentRun prompt]).
Proof.
  cbv zeta. unfold get_response, try_except, call, mbind, IO_bind, mret, IO_ret.
  rewrite ask_user_context_prompt.
  by destruct (agent_reply w tr (ask_prompt request)).
Qed.

(** X16. [YorubaAgent.__init__] reads [settings.gemini_api_key], a field
    that [Settings] does not declare, so constructing the agent raises
    [AttributeError] whatever the model construction would do; from a fresh
    process the start-up re-raises it, the three agent routes answer HTTP
    500 with that message without any provider call, and no number of
    further attempts ever leaves an instance behind. *)
Theorem agent_cannot_be_constructed exception_str model_init now w request tr :
  let e := AttributeError "Settings" "gemini_api_key" in
  YorubaAgent_init model_init = inl e
  /\ lifespan_startup (YorubaAgent_init model_init) fresh_process = (inl e, fresh_process)
  /\ ask_question exception_str (YorubaAgent_init model_init) now w request None tr
     = (RaisesHTTP 500
          (u"Failed to process question: 'Settings' object has no attribute 'gemini_api_key'"),
        None, tr)
  /\ get_greeting (YorubaAgent_init model_init) None
     = (RaisesHTTP 500
          (u"Failed to get greeting: 'Settings' object has no attribute 'gemini_api_key'"),
        None)
  /\ get_help (YorubaAgent_init model_init) None
     = (RaisesHTTP 500
          (u"Failed to get help: 'Settings' object has no attribute 'gemini_api_key'"),
        None)
  /\ forall attempts : list (option InitError),
       foldl (fun store attempt =>
                (get_yoruba_agent (YorubaAgent_init attempt) store).2)
             None attempts
       = None.
Proof.
  cbv zeta. do 5 (split; [reflexivity|]).
  intros attempts. induction attempts as [|attempt attempts IH]; [reflexivity|].
  exact IH.
Qed.
